(** * pyart.map.gates_to_grid: mapping radar gates onto a Cartesian grid

    A shallow embedding of [src/pyart/map/gates_to_grid.py].  Python
    exceptions are values of [exn], functions that may raise return a
    [result], and the functions that also call [warnings.warn] run in the
    monad [M], which threads the list of warnings issued so far.  A local
    variable that some paths leave unassigned is an [option], read with
    [load_local].

    Floating-point arithmetic is kept abstract in the class [Float]: every
    theorem holds for any arithmetic with the listed operations (and, where
    stated, the two laws of [FloatLaws]); the class says which numbers are
    finite and which integers are too large to convert.  [str.upper] is
    kept abstract in the class [PyStr], with its two facts that the proofs
    use.  What the module imports from files outside [src/]
    ([geographic_to_cartesian], [GateFilter], [moment_based_gate_filter],
    [GateToGridMapper]) is the interface [Collaborators]; the projection
    may raise.

    Arrays are lists: a one-dimensional array is a [list F], a
    two-dimensional one a list of rows, and the four-dimensional
    [grid_sum] and [grid_wsum] are lists of cells (in row-major order of
    [(z, y, x)]), each cell a list with one entry per field.  A Radar's
    arrays have the shapes its class documents: [(nrays, ngates)] for the
    gate and field arrays.

    The header of [_parse_roi_func] (line 303) lacks a comma; it is
    recorded as written in [_parse_roi_func_header], and the function
    bodies are embedded with the ten parameters its call site passes. *)

From Stdlib Require Import ZArith QArith Qabs Ascii String.
From stdpp Require Import gmap strings list.

Local Open Scope string_scope.
Local Open Scope Z_scope.

(** ** Exceptions, warnings and the two monads *)

Inductive exn : Type :=
| ValueError (msg : string)
| TypeError
| IndexError
| KeyError (key : string)
| AttributeError (msg : string)
| UnboundLocalError (name : string)
| ZeroDivisionError
| OverflowError.

Inductive warning : Type :=
| DeprecationWarning (msg : string).

Inductive result (A : Type) : Type :=
| Ok (a : A)
| Raise (e : exn).
Arguments Ok {A} a.
Arguments Raise {A} e.

#[global] Instance result_ret : MRet result := λ A a, Ok a.
#[global] Instance result_bind : MBind result :=
  λ A B f m, match m with Ok a => f a | Raise e => Raise e end.
#[global] Instance result_fmap : FMap result :=
  λ A B f m, match m with Ok a => Ok (f a) | Raise e => Raise e end.

(** [M A]: a computation that receives the warnings issued so far and
    returns its outcome together with the extended list.  A raised
    exception keeps the warnings issued before it.  The list records the
    calls of [warnings.warn] made by this module; what numpy itself may
    report while it computes is not recorded. *)
Definition M (A : Type) : Type := list warning → result A * list warning.

#[global] Instance M_ret : MRet M := λ A a w, (Ok a, w).
#[global] Instance M_bind : MBind M :=
  λ A B f m w, match m w with
               | (Ok a, w') => f a w'
               | (Raise e, w') => (Raise e, w')
               end.

Definition lift {A} (r : result A) : M A := λ w, (r, w).
Definition warn (x : warning) : M unit := λ w, (Ok tt, (w ++ [x])%list).

(** A [for] loop whose body may raise: the first exception ends the loop. *)
Fixpoint mapR {A B} (f : A → result B) (l : list A) : result (list B) :=
  match l with
  | [] => Ok []
  | x :: l' => y ← f x; ys ← mapR f l'; mret (y :: ys)
  end.

Fixpoint foldR {A S} (f : S → A → result S) (s : S) (l : list A) : result S :=
  match l with
  | [] => Ok s
  | x :: l' => s' ← f s x; foldR f s' l'
  end.

(** ** Floating-point arithmetic *)

Class Float (F : Type) : Type := {
  fzero : F;
  fone : F;
  of_int : Z → F;
  fadd : F → F → F;
  fsub : F → F → F;
  fmul : F → F → F;
  fdiv : F → F → F;
  fsqrt : F → F;
  fmaximum : F → F → F;
  fabs : F → F;
  feqb : F → F → bool;
  fltb : F → F → bool;
  fleb : F → F → bool;
  (* [np.finfo(float).tiny] *)
  ftiny : F;
  (* [np.isfinite]: neither an infinity nor a NaN *)
  fisfinite : F → bool;
  (* rounding to float32, as [astype('float32')] and float32 arithmetic do *)
  to_float32 : F → F;
  (* the integers that [float(n)] refuses: too large to convert *)
  float_overflow : Z → bool
}.

(** Exact rational arithmetic is one such arithmetic: every number is
    finite and every integer converts; the square root is the integer
    square root of the scaled numerator. *)
Definition Qsqrt_approx (q : Q) : Q :=
  Qmake (Z.sqrt (Qnum q * Zpos (Qden q))) (Qden q).

Definition Qmaximum (a b : Q) : Q := if Qle_bool a b then b else a.

#[global] Instance Q_Float : Float Q := {|
  fzero := inject_Z 0;
  fone := inject_Z 1;
  of_int := inject_Z;
  fadd := Qplus;
  fsub := Qminus;
  fmul := Qmult;
  fdiv := Qdiv;
  fsqrt := Qsqrt_approx;
  fmaximum := Qmaximum;
  fabs := Qabs;
  feqb := Qeq_bool;
  fltb := λ a b, negb (Qle_bool b a);
  fleb := Qle_bool;
  ftiny := Qmake 1 (2 ^ 1022);
  fisfinite := λ _, true;
  to_float32 := λ q, q;
  float_overflow := λ _, false
|}.

(** Rationals with one more value, [None], that stands for the
    infinities and NaN: a result outside the range of the format is not
    finite, a division by zero is not finite, and an integer beyond the
    range of binary64 does not convert.  No rounding is modelled. *)
Definition xq_max32 : Q := inject_Z (2 ^ 128 - 2 ^ 104).
Definition xq_max64 : Z := 2 ^ 1024 - 2 ^ 970.

Definition xq_lift1 (f : Q → Q) (a : option Q) : option Q :=
  match a with Some x => Some (f x) | None => None end.

Definition xq_lift2 (f : Q → Q → Q) (a b : option Q) : option Q :=
  match a, b with Some x, Some y => Some (f x y) | _, _ => None end.

Definition xq_test2 (f : Q → Q → bool) (a b : option Q) : bool :=
  match a, b with Some x, Some y => f x y | _, _ => false end.

Definition xq_div (a b : option Q) : option Q :=
  match a, b with
  | Some x, Some y => if Qeq_bool y (inject_Z 0) then None else Some (Qdiv x y)
  | _, _ => None
  end.

Definition xq_to_float32 (a : option Q) : option Q :=
  match a with
  | Some x => if Qle_bool (Qabs x) xq_max32 then Some x else None
  | None => None
  end.

#[global] Instance XQ_Float : Float (option Q) := {|
  fzero := Some (inject_Z 0);
  fone := Some (inject_Z 1);
  of_int := λ n, Some (inject_Z n);
  fadd := xq_lift2 Qplus;
  fsub := xq_lift2 Qminus;
  fmul := xq_lift2 Qmult;
  fdiv := xq_div;
  fsqrt := xq_lift1 Qsqrt_approx;
  fmaximum := xq_lift2 Qmaximum;
  fabs := xq_lift1 Qabs;
  feqb := xq_test2 Qeq_bool;
  fltb := xq_test2 (λ a b, negb (Qle_bool b a));
  fleb := xq_test2 Qle_bool;
  ftiny := Some (Qmake 1 (2 ^ 1022));
  fisfinite := λ a, match a with Some _ => true | None => false end;
  to_float32 := xq_to_float32;
  float_overflow := λ n, xq_max64 <=? Z.abs n
|}.

(** The two facts about the arithmetic that the proofs use. *)
Class FloatLaws (F : Type) `{Float F} : Prop := {
  (* a positive number is not zero *)
  fltb_zero_neq : ∀ w : F, fltb fzero w = true → feqb w fzero = false;
  (* [n - 1.] is zero only for [n = 1] *)
  of_int_sub_one : ∀ n : Z,
    float_overflow n = false → n ≠ 1 →
    feqb (fsub (of_int n) fone) fzero = false
}.

(** ** Strings *)

(** A Python [str] is kept as the string of its UTF-8 bytes.  On an
    ASCII character [str.upper] moves the letters a..z to A..Z and leaves
    the others. *)
Definition upper_ascii (c : ascii) : ascii :=
  let n := nat_of_ascii c in
  if ((97 <=? n) && (n <=? 122))%nat then ascii_of_nat (n - 32) else c.

Fixpoint ascii_upper (s : string) : string :=
  match s with
  | EmptyString => EmptyString
  | String c s' => String (upper_ascii c) (ascii_upper s')
  end.

(** A string all of whose bytes are ASCII characters. *)
Fixpoint is_ascii (s : string) : bool :=
  match s with
  | EmptyString => true
  | String c s' => (nat_of_ascii c <? 128)%nat && is_ascii s'
  end.

(** [str.upper]: it follows the Unicode case mapping ('ß' gives 'SS'), of
    which two facts are kept: on an ASCII string it is [ascii_upper], and
    upper-casing twice is upper-casing once. *)
Class PyStr : Type := {
  upper : string → string;
  upper_on_ascii : ∀ s, is_ascii s = true → upper s = ascii_upper s;
  upper_idempotent : ∀ s, upper (upper s) = upper s
}.

(** The upper-casing of ASCII strings, for the closed examples. *)
Definition ascii_PyStr : PyStr.
Proof.
  refine {| upper := ascii_upper;
            upper_on_ascii := λ s _, eq_refl;
            upper_idempotent := _ |}.
  induction s as [|c s IH]; simpl; [reflexivity|].
  f_equal; [|exact IH].
  destruct c as [[] [] [] [] [] [] [] []]; reflexivity.
Defined.

(** ** [_detemine_cy_weighting_func] (lines 193-208) *)

Definition barnes_deprecation : warning :=
  DeprecationWarning
    ("Barnes weighting function is deprecated."
     ++ " Please use Barnes 2 to be consistent with"
     ++ " Pauley and Wu 1990.").

Definition _detemine_cy_weighting_func `{!PyStr} (weighting_function : string)
  : M Z :=
  if String.eqb (upper weighting_function) "BARNES2" then mret 3
  else if String.eqb (upper weighting_function) "NEAREST" then mret 2
  else if String.eqb (upper weighting_function) "CRESSMAN" then mret 1
  else if String.eqb (upper weighting_function) "BARNES" then
    _ ← warn barnes_deprecation; mret 0
  else lift (Raise (ValueError "unknown weighting_function")).

(** ** The header of [_parse_roi_func] as written (lines 302-303)

    The parameter list of a [def] is a sequence of names separated by
    commas, with an optional trailing comma. *)

Inductive token : Type :=
| NAME (s : string)
| COMMA.

Fixpoint parse_parameters (ts : list token) : option (list string) :=
  match ts with
  | [] => Some []
  | [NAME x] => Some [x]
  | NAME x :: COMMA :: ts' => cons x <$> parse_parameters ts'
  | _ => None
  end.

(** The tokens between the parentheses on lines 302-303: no comma stands
    between [offsets] and [max_az_spacing]. *)
Definition _parse_roi_func_header : list token :=
  [NAME "roi_func"; COMMA; NAME "constant_roi"; COMMA; NAME "z_factor"; COMMA;
   NAME "xy_factor"; COMMA; NAME "min_radius"; COMMA;
   NAME "h_factor"; COMMA; NAME "nb"; COMMA; NAME "bsp"; COMMA;
   NAME "offsets"; NAME "max_az_spacing"].

(** The ten arguments the call on lines 132-134 passes; the bodies below
    are embedded as called with these ten parameters. *)
Definition _parse_roi_func_call_arguments : list string :=
  ["roi_func"; "constant_roi"; "z_factor"; "xy_factor"; "min_radius";
   "h_factor"; "nb"; "bsp"; "offsets"; "max_az_spacing"].

Section Model.
Context {F : Type} `{!Float F} `{!PyStr}.

(** ** numpy and Python primitives used by the module *)

(** One element of a masked array: the stored value and its mask bit. *)
Record mcell : Type := { m_data : F; m_mask : bool }.

(** Values held in the projection and keyword dictionaries. *)
Inductive pyval : Type :=
| PStr (s : string)
| PBool (b : bool)
| PFloat (x : F).

Definition truthy (v : pyval) : bool :=
  match v with
  | PStr s => negb (String.eqb s EmptyString)
  | PBool b => b
  | PFloat x => negb (feqb x fzero)
  end.

(** An operation applied to every element of a two-dimensional array. *)
Definition map2d {A B} (f : A → B) (a : list (list A)) : list (list B) :=
  (λ row : list A, f <$> row) <$> a.

(** [float(a)] on an array: only an array of one element converts. *)
Definition py_float (a : list F) : result F :=
  match a with
  | [x] => Ok x
  | _ => Raise TypeError
  end.

(** [try: body  except TypeError: handler] *)
Definition try_except_TypeError {A} (body handler : result A) : result A :=
  match body with
  | Raise TypeError => handler
  | r => r
  end.

Definition np_mean (a : list F) : F :=
  fdiv (foldl fadd fzero a) (of_int (Z.of_nat (length a))).

(** [np.diff]: [out[i] = a[i+1] - a[i]]. *)
Definition np_diff (a : list F) : list F :=
  zip_with (λ x y, fsub y x) a (tail a).

(** [np.max]: an empty array has no maximum. *)
Definition np_max (a : list F) : result F :=
  match a with
  | [] => Raise (ValueError
            "zero-size array to reduction operation maximum which has no identity")
  | x :: l => Ok (foldl fmaximum x l)
  end.

(** [a[:, -1]] on an array of shape [(len a, ncols)]. *)
Definition last_column (ncols : nat) (a : list (list F)) : result (list F) :=
  if decide (ncols = 0%nat) then Raise IndexError
  else mapR (λ row, match last row with
                    | Some x => Ok x
                    | None => Raise IndexError
                    end) a.

(** [a.append] for [a] a [numpy.ndarray]: arrays have no such attribute
    (lists have), so the attribute lookup raises before the argument of
    the call is evaluated. *)
Definition ndarray_append_method (a : list F) : result (F → list F) :=
  Raise (AttributeError "'numpy.ndarray' object has no attribute 'append'").

(** The conversion of a Python [int] to [float], as in [n - 1.]. *)
Definition py_float_of_int (n : Z) : result F :=
  if float_overflow n then Raise OverflowError else Ok (of_int n).

(** Python's [/] on floats. *)
Definition py_truediv (a b : F) : result F :=
  if feqb b fzero then Raise ZeroDivisionError else Ok (fdiv a b).

(** [seq[0]] *)
Definition index0 {A} (l : list A) : result A :=
  match l with
  | [] => Raise IndexError
  | x :: _ => Ok x
  end.

(** [np.zeros((nz, ny, nx, nfields))]: one row of [nfields] zeros per grid
    cell, cells in row-major order. *)
Definition np_zeros (grid_shape : Z * Z * Z) (nfields : nat)
  : result (list (list F)) :=
  let '(nz, ny, nx) := grid_shape in
  if (nz <? 0) || (ny <? 0) || (nx <? 0)
  then Raise (ValueError "negative dimensions are not allowed")
  else Ok (replicate (Z.to_nat (nz * ny * nx)) (replicate nfields fzero)).

(** ** Radars, gate filters, radius-of-influence objects *)

Record Radar : Type := {
  altitude : list F;                    (* altitude['data'] *)
  latitude : list F;
  longitude : list F;
  fields : gmap string (list (list mcell));  (* fields[name]['data'] *)
  nrays : nat;
  ngates : nat;
  gate_x : list (list F);               (* shape (nrays, ngates) *)
  gate_y : list (list F);
  gate_longitude : list (list F);
  gate_latitude : list (list F);
  gate_altitude : list (list F)
}.

Record GateFilter : Type := { gate_excluded : list (list bool) }.

(** The first argument: a single [Radar] or a sequence of them. *)
Inductive radars_arg : Type :=
| OneRadar (r : Radar)
| RadarSeq (rs : list Radar).

Inductive gatefilter_item : Type :=
| ItemFalse
| ItemNone
| ItemFilter (g : GateFilter).

Inductive gatefilters_arg : Type :=
| GatefiltersFalse
| GatefiltersNone
| OneGateFilter (g : GateFilter)
| GateFilterSeq (l : list gatefilter_item).

(** The classes of [_gate_to_grid_map], by the arguments their
    constructors receive; [CustomRoI] is a user-defined subclass. *)
Inductive RoIFunction : Type :=
| ConstantRoI (constant_roi : F)
| DistRoI (z_factor xy_factor min_radius : F) (offsets : list (F * F * F))
| DistBeamRoI (h_factor nb bsp min_radius : F) (offsets : list (F * F * F))
| MaxSpaceRoI (max_az_spacing : F)
| CustomRoI (get_roi : F → F → F → F).

Inductive roi_arg : Type :=
| RoiName (s : string)
| RoiObject (r : RoIFunction).

Record GateToGridMapper : Type := {
  gm_grid_shape : Z * Z * Z;
  gm_grid_starts : F * F * F;
  gm_grid_steps : F * F * F
}.

(** The arguments of one [gatemapper.map_gates_to_grid] call (lines
    175-179).  The [(nrays, ngates, nfields)] buffers are kept as one
    [(nrays, ngates)] plane per field. *)
Record gate_call : Type := {
  gc_ngates : nat;
  gc_nrays : nat;
  gc_gate_z : list (list F);
  gc_gate_y : list (list F);
  gc_gate_x : list (list F);
  gc_field_data : list (list (list F));
  gc_field_mask : list (list (list bool));
  gc_excluded_gates : list (list bool);
  gc_toa : F;
  gc_roi_func : RoIFunction;
  gc_weighting_function : Z;
  gc_max_az_spacing : F
}.

(** [grid_sum] and [grid_wsum]: per cell, one entry per field. *)
Definition accumulator : Type := list (list F) * list (list F).

(** What the module imports from outside this file. *)
Class Collaborators : Type := {
  (* the contents of memory handed out by [np.empty] *)
  uninitialised : nat → F;
  (* ..core.transforms, on location arrays and on gate arrays; the
     projection may reject its parameters or its input with an exception *)
  geographic_to_cartesian :
    list F → list F → gmap string pyval → result (list F * list F);
  geographic_to_cartesian_gates :
    list (list F) → list (list F) → gmap string pyval
    → result (list (list F) * list (list F));
  (* ..filters *)
  GateFilter_of_radar : Radar → GateFilter;
  moment_based_gate_filter : Radar → gmap string pyval → GateFilter;
  (* ._gate_to_grid_map.GateToGridMapper: the first updates [grid_sum] and
     [grid_wsum] in place, the second fills [roi_array] *)
  gatemapper_map_gates_to_grid :
    GateToGridMapper → gate_call → accumulator → accumulator;
  gatemapper_find_roi_for_grid : GateToGridMapper → RoIFunction → list F
}.

Context `{!Collaborators}.

Definition np_empty (n : nat) : list F := uninitialised <$> seq 0 n.

(** ** [_find_projparams] (lines 211-234) *)

Definition _find_projparams (grid_origin : option (F * F)) (radars : list Radar)
    (grid_projection : option (gmap string pyval))
  : result (gmap string pyval) :=
  grid_origin ←
    match grid_origin with
    | None =>
        radar0 ← index0 radars;
        try_except_TypeError
          (lat ← py_float (latitude radar0);
           lon ← py_float (longitude radar0);
           mret (lat, lon))
          (Ok (np_mean (latitude radar0), np_mean (longitude radar0)))
    | Some o => Ok o
    end;
  let '(grid_origin_lat, grid_origin_lon) := grid_origin in
  let grid_projection :=
    match grid_projection with
    | None => <["proj" := PStr "pyart_aeqd"]>
                (<["_include_lon_0_lat_0" := PBool true]> ∅)
    | Some p => p
    end in
  let popped := default (PBool false) (grid_projection !! "_include_lon_0_lat_0") in
  let projparams := delete "_include_lon_0_lat_0" grid_projection in
  if truthy popped
  then Ok (<["lat_0" := PFloat grid_origin_lat]>
             (<["lon_0" := PFloat grid_origin_lon]> projparams))
  else Ok projparams.

(** ** [_parse_gatefilters] (lines 237-247) *)

Definition _parse_gatefilters (gatefilters : gatefilters_arg) (radars : list Radar)
  : result (list gatefilter_item) :=
  let gatefilters :=
    match gatefilters with
    | OneGateFilter g => [ItemFilter g]
    | GatefiltersFalse => replicate (length radars) ItemFalse
    | GatefiltersNone => replicate (length radars) ItemNone
    | GateFilterSeq l => l
    end in
  if decide (length gatefilters ≠ length radars)
  then Raise (ValueError "Length of gatefilters must match length of radars")
  else Ok gatefilters.

(** ** [_determine_fields] (lines 250-257) *)

Definition _determine_fields (fields_arg : option (list string))
    (radars : list Radar) : result (list string) :=
  match fields_arg with
  | None =>
      radar0 ← index0 radars;
      let fields0 : gset string := dom (fields radar0) in
      let fields' :=
        foldl (λ (acc : gset string) radar, acc ∩ dom (fields radar))
              fields0 (tail radars) in
      Ok (elements fields')
  | Some l => Ok l
  end.

(** ** [_find_offsets] (lines 260-273) *)

Definition _find_offsets (radars : list Radar) (projparams : gmap string pyval)
    (grid_origin_alt : F) : result (list (F * F * F)) :=
  mapR (λ radar,
    '(x_disp, y_disp) ←
      geographic_to_cartesian (longitude radar) (latitude radar) projparams;
    try_except_TypeError
      (z ← py_float (altitude radar);
       let z_disp := fsub z grid_origin_alt in
       y ← py_float y_disp;
       x ← py_float x_disp;
       mret (z_disp, y, x))
      (let z_disp := fsub (np_mean (altitude radar)) grid_origin_alt in
       Ok (z_disp, np_mean y_disp, np_mean x_disp)))
    radars.

(** ** [_find_grid_params] (lines 276-299) *)

Definition _find_grid_params (grid_shape : Z * Z * Z)
    (grid_limits : (F * F) * (F * F) * (F * F))
  : result ((F * F * F) * (F * F * F)) :=
  let '(nz, ny, nx) := grid_shape in
  let '(zr, yr, xr) := grid_limits in
  let '(z_start, z_stop) := zr in
  let '(y_start, y_stop) := yr in
  let '(x_start, x_stop) := xr in
  z_step ← (if nz =? 1 then Ok fzero
            else n ← py_float_of_int nz;
                 py_truediv (fsub z_stop z_start) (fsub n fone));
  y_step ← (if ny =? 1 then Ok fzero
            else n ← py_float_of_int ny;
                 py_truediv (fsub y_stop y_start) (fsub n fone));
  x_step ← (if nx =? 1 then Ok fzero
            else n ← py_float_of_int nx;
                 py_truediv (fsub x_stop x_start) (fsub n fone));
  let grid_starts := (z_start, y_start, x_start) in
  let grid_steps := (z_step, y_step, x_step) in
  Ok (grid_starts, grid_steps).

(** ** [_parse_roi_func] (lines 302-316) *)

Definition _parse_roi_func (roi_func : roi_arg)
    (constant_roi z_factor xy_factor min_radius h_factor nb bsp : F)
    (offsets : list (F * F * F)) (max_az_spacing : F) : result RoIFunction :=
  match roi_func with
  | RoiObject r => Ok r
  | RoiName s =>
      if String.eqb s "constant" then Ok (ConstantRoI constant_roi)
      else if String.eqb s "dist" then
        Ok (DistRoI z_factor xy_factor min_radius offsets)
      else if String.eqb s "dist_beam" then
        Ok (DistBeamRoI h_factor nb bsp min_radius offsets)
      else if String.eqb s "max_space" then Ok (MaxSpaceRoI max_az_spacing)
      else Raise (ValueError ("unknown roi_func: " ++ s))
  end.

(** ** [map_gates_to_grid] (lines 34-190) *)

Record call_args : Type := {
  a_radars : radars_arg;
  a_grid_shape : Z * Z * Z;
  a_grid_limits : (F * F) * (F * F) * (F * F);
  a_grid_origin : option (F * F);
  a_grid_origin_alt : option F;
  a_grid_projection : option (gmap string pyval);
  a_fields : option (list string);
  a_gatefilters : gatefilters_arg;
  a_map_roi : bool;
  a_weighting_function : string;
  a_toa : F;
  a_roi_func : roi_arg;
  a_constant_roi : F;
  a_z_factor : F;
  a_xy_factor : F;
  a_min_radius : F;
  a_h_factor : F;
  a_nb : F;
  a_bsp : F;
  a_kwargs : gmap string pyval
}.

(** The call [map_gates_to_grid(radars, grid_shape, grid_limits)] with
    every other parameter at its default (lines 35-40). *)
Definition default_args (radars : radars_arg) (grid_shape : Z * Z * Z)
    (grid_limits : (F * F) * (F * F) * (F * F)) : call_args :=
  {| a_radars := radars;
     a_grid_shape := grid_shape;
     a_grid_limits := grid_limits;
     a_grid_origin := None;
     a_grid_origin_alt := None;
     a_grid_projection := None;
     a_fields := None;
     a_gatefilters := GatefiltersFalse;
     a_map_roi := true;
     a_weighting_function := "Barnes";
     a_toa := of_int 17000;
     a_roi_func := RoiName "dist_beam";
     a_constant_roi := of_int 500;
     a_z_factor := fdiv (of_int 5) (of_int 100);
     a_xy_factor := fdiv (of_int 2) (of_int 100);
     a_min_radius := of_int 500;
     a_h_factor := fone;
     a_nb := fdiv (of_int 15) (of_int 10);
     a_bsp := fone;
     a_kwargs := ∅ |}.

(** Reading a local variable: a name that no statement on the path taken
    has assigned raises [UnboundLocalError]. *)
Definition load_local {A} (name : string) (v : option A) : result A :=
  match v with
  | Some x => Ok x
  | None => Raise (UnboundLocalError name)
  end.

(** [roi_func == 'max_space'] (line 124): false for an object. *)
Definition roi_is (roi_func : roi_arg) (name : string) : bool :=
  match roi_func with
  | RoiName s => String.eqb s name
  | RoiObject _ => false
  end.

(** The body of the loop on lines 125-129. *)
Definition max_space_step (max_space_radars : list F) (radar : Radar)
  : result (list F) :=
  gate_x ← last_column (ngates radar) (gate_x radar);
  gate_y ← last_column (ngates radar) (gate_y radar);
  let spacing :=
    fsqrt <$> zip_with fadd ((λ d, fmul d d) <$> np_diff gate_x)
                            ((λ d, fmul d d) <$> np_diff gate_y) in
  append ← ndarray_append_method max_space_radars;
  m ← np_max spacing;
  mret (append m).

(** Lines 123-130: the local [max_az_spacing] after the [if]; [None] when
    no assignment to it was executed. *)
Definition max_az_spacing_local (roi_func : roi_arg) (radars : list Radar)
  : result (option F) :=
  let max_space_radars := np_empty (length radars) in
  if roi_is roi_func "max_space" then
    max_space_radars ← foldR max_space_step max_space_radars radars;
    max_az_spacing ← np_max max_space_radars;
    mret (Some max_az_spacing)
  else Ok None.

(** [radar.fields[field]['data']] (line 152) *)
Definition field_array (radar : Radar) (field : string)
  : result (list (list mcell)) :=
  match fields radar !! field with
  | Some fdata => Ok fdata
  | None => Raise (KeyError field)
  end.

(** Lines 148-154: the field data and masks of one radar, one plane per
    requested field. *)
Definition copy_field_data (radar : Radar) (fields_ : list string)
  : result (list (list (list F)) * list (list (list bool))) :=
  planes ← mapR (field_array radar) fields_;
  let field_data := fmap (M:=list) (map2d (λ c, to_float32 (m_data c))) planes in
  let field_mask := fmap (M:=list) (map2d m_mask) planes in
  mret (field_data, field_mask).

(** Lines 146-179: everything one iteration of the loop over the radars
    computes before it calls the gate mapper. *)
Definition gate_call_of (radar : Radar) (gatefilter : gatefilter_item)
    (fields_ : list string) (kwargs : gmap string pyval)
    (skip_transform : bool) (projparams : gmap string pyval)
    (grid_origin_alt toa : F) (roi_func : RoIFunction)
    (cy_weighting_function : Z) (max_az_spacing : option F)
  : result gate_call :=
  '(field_data, field_mask) ← copy_field_data radar fields_;
  let gatefilter :=
    match gatefilter with
    | ItemFalse => GateFilter_of_radar radar
    | ItemNone => moment_based_gate_filter radar kwargs
    | ItemFilter g => g
    end in
  let excluded_gates := gate_excluded gatefilter in
  '(gate_x, gate_y) ←
    (if skip_transform then Ok (gate_x radar, gate_y radar)
     else geographic_to_cartesian_gates
            (gate_longitude radar) (gate_latitude radar) projparams);
  let gate_z := map2d (λ z, fsub z grid_origin_alt) (gate_altitude radar) in
  max_az_spacing ← load_local "max_az_spacing" max_az_spacing;
  Ok {| gc_ngates := ngates radar;
        gc_nrays := nrays radar;
        gc_gate_z := map2d to_float32 gate_z;
        gc_gate_y := map2d to_float32 gate_y;
        gc_gate_x := map2d to_float32 gate_x;
        gc_field_data := field_data;
        gc_field_mask := field_mask;
        gc_excluded_gates := excluded_gates;
        gc_toa := toa;
        gc_roi_func := roi_func;
        gc_weighting_function := cy_weighting_function;
        gc_max_az_spacing := max_az_spacing |}.

(** Lines 144-179: the loop over [zip(radars, gatefilters)]. *)
Definition map_all_gates (gatemapper : GateToGridMapper)
    (radars : list Radar) (gatefilters : list gatefilter_item)
    (fields_ : list string) (kwargs : gmap string pyval)
    (skip_transform : bool) (projparams : gmap string pyval)
    (grid_origin_alt toa : F) (roi_func : RoIFunction)
    (cy_weighting_function : Z) (max_az_spacing : option F)
    (grids : accumulator) : result accumulator :=
  foldR (λ grids '(radar, gatefilter),
           call ← gate_call_of radar gatefilter fields_ kwargs skip_transform
                    projparams grid_origin_alt toa roi_func
                    cy_weighting_function max_az_spacing;
           mret (gatemapper_map_gates_to_grid gatemapper call grids))
        grids (zip radars gatefilters).

(** *** The finalizer (lines 181-190) *)

(** [np.ma.masked_equal(a, 0)] *)
Definition masked_equal_zero (a : list (list F)) : list (list mcell) :=
  map2d (λ x, {| m_data := x; m_mask := feqb x fzero |}) a.

(** [np.ma.masked_array(data, mask)] *)
Definition masked_array (data : list (list F)) (mask : list (list bool))
  : list (list mcell) :=
  zip_with (zip_with Build_mcell) data mask.

(** [a[..., i]] *)
Definition slice_last {A} (i : nat) (a : list (list A)) : result (list A) :=
  mapR (λ cell, match cell !! i with
                | Some x => Ok x
                | None => Raise IndexError
                end) a.

(** One element of a binary operation of [numpy.ma] that has a domain:
    the operation is applied to the stored values, errors of the
    arithmetic being ignored, and the result is masked where it is not
    finite, where the pair of values is outside the domain, or where an
    operand is masked; a masked element stores the first operand in place
    of the result. *)
Definition ma_domained_binary (f : F → F → F) (domain : F → F → bool)
    (a b : mcell) : mcell :=
  let result := f (m_data a) (m_data b) in
  let m := negb (fisfinite result) || domain (m_data a) (m_data b)
           || m_mask a || m_mask b in
  {| m_data := if m then m_data a else result; m_mask := m |}.

(** The domain of the safe division:
    [absolute(a) * tiny >= absolute(b)]. *)
Definition safe_divide_domain (a b : F) : bool :=
  fleb (fabs b) (fmul (fabs a) ftiny).

(** Division of two float32 arrays, element by element. *)
Definition fdiv32 (a b : F) : F := to_float32 (fdiv a b).

(** [a / b] on masked float32 arrays, element by element. *)
Definition ma_true_divide (a b : mcell) : mcell :=
  ma_domained_binary fdiv32 safe_divide_domain a b.

(** An array of [ncells] cells with [nfields] entries each, the shape of
    [grid_sum] and [grid_wsum] (lines 138-139). *)
Definition has_shape {A} (ncells nfields : nat) (a : list (list A)) : Prop :=
  length a = ncells ∧ Forall (λ cell, length cell = nfields) a.

(** Lines 182-185: the pairs handed to [dict]. *)
Definition field_grids (fields_ : list string) (grid_sum grid_wsum : list (list F))
  : result (list (string * list mcell)) :=
  let mweight := masked_equal_zero grid_wsum in
  let msum := masked_array grid_sum (map2d m_mask mweight) in
  mapR (λ '(i, f),
          s ← slice_last i msum;
          w ← slice_last i mweight;
          mret (f, zip_with ma_true_divide s w))
       (imap pair fields_).

Inductive grid_value : Type :=
| FieldGrid (g : list mcell)
| RoiGrid (g : list F).

(** [dict(pairs)]: a later pair replaces an earlier one with the same key. *)
Definition dict_of_pairs (pairs : list (string * list mcell))
  : gmap string grid_value :=
  foldl (λ d '(f, g), <[f := FieldGrid g]> d) ∅ pairs.

Definition finalize (gatemapper : GateToGridMapper) (fields_ : list string)
    (grid_sum grid_wsum : list (list F)) (map_roi : bool)
    (roi_func : RoIFunction) : result (gmap string grid_value) :=
  pairs ← field_grids fields_ grid_sum grid_wsum;
  let grids := dict_of_pairs pairs in
  if map_roi then
    let roi_array := gatemapper_find_roi_for_grid gatemapper roi_func in
    Ok (<["ROI" := RoiGrid roi_array]> grids)
  else Ok grids.

(** *** The whole call *)

Definition radars_tuple (radars : radars_arg) : list Radar :=
  match radars with
  | OneRadar r => [r]
  | RadarSeq rs => rs
  end.

Definition is_None {A} (o : option A) : bool :=
  match o with None => true | Some _ => false end.

(** The values bound on lines 102-121. *)
Record prelude_locals : Type := {
  l_radars : list Radar;
  l_skip_transform : bool;
  l_grid_origin_alt : F;
  l_gatefilters : list gatefilter_item;
  l_cy_weighting_function : Z;
  l_projparams : gmap string pyval;
  l_fields : list string;
  l_grid_starts : F * F * F;
  l_grid_steps : F * F * F;
  l_offsets : list (F * F * F)
}.

(** Lines 110-114. *)
Definition find_grid_origin_alt (grid_origin_alt : option F)
    (radars : list Radar) : result F :=
  match grid_origin_alt with
  | None =>
      radar0 ← index0 radars;
      try_except_TypeError (py_float (altitude radar0))
                           (Ok (np_mean (altitude radar0)))
  | Some alt => Ok alt
  end.

(** Lines 102-121. *)
Definition prelude (a : call_args) : M prelude_locals :=
  let radars := radars_tuple (a_radars a) in
  let skip_transform :=
    bool_decide (length radars = 1%nat) && is_None (a_grid_origin_alt a)
    && is_None (a_grid_origin a) in
  grid_origin_alt ← lift (find_grid_origin_alt (a_grid_origin_alt a) radars);
  gatefilters ← lift (_parse_gatefilters (a_gatefilters a) radars);
  cy_weighting_function ← _detemine_cy_weighting_func (a_weighting_function a);
  projparams ← lift (_find_projparams (a_grid_origin a) radars (a_grid_projection a));
  fields_ ← lift (_determine_fields (a_fields a) radars);
  '(grid_starts, grid_steps) ←
    lift (_find_grid_params (a_grid_shape a) (a_grid_limits a));
  offsets ← lift (_find_offsets radars projparams grid_origin_alt);
  mret {| l_radars := radars;
          l_skip_transform := skip_transform;
          l_grid_origin_alt := grid_origin_alt;
          l_gatefilters := gatefilters;
          l_cy_weighting_function := cy_weighting_function;
          l_projparams := projparams;
          l_fields := fields_;
          l_grid_starts := grid_starts;
          l_grid_steps := grid_steps;
          l_offsets := offsets |}.

(** Lines 123-190, from the values of [prelude]. *)
Definition map_from_prelude (a : call_args) (L : prelude_locals)
  : result (gmap string grid_value) :=
  max_az_spacing ← max_az_spacing_local (a_roi_func a) (l_radars L);
  roi_func ←
    (max_az_spacing' ← load_local "max_az_spacing" max_az_spacing;
     _parse_roi_func (a_roi_func a) (a_constant_roi a) (a_z_factor a)
       (a_xy_factor a) (a_min_radius a) (a_h_factor a) (a_nb a) (a_bsp a)
       (l_offsets L) max_az_spacing');
  let nfields := length (l_fields L) in
  grid_sum ← np_zeros (a_grid_shape a) nfields;
  grid_wsum ← np_zeros (a_grid_shape a) nfields;
  let gatemapper :=
    {| gm_grid_shape := a_grid_shape a;
       gm_grid_starts := l_grid_starts L;
       gm_grid_steps := l_grid_steps L |} in
  '(grid_sum, grid_wsum) ←
    map_all_gates gatemapper (l_radars L) (l_gatefilters L) (l_fields L)
      (a_kwargs a) (l_skip_transform L) (l_projparams L)
      (l_grid_origin_alt L) (a_toa a) roi_func
      (l_cy_weighting_function L) max_az_spacing (grid_sum, grid_wsum);
  finalize gatemapper (l_fields L) grid_sum grid_wsum (a_map_roi a) roi_func.

Definition map_gates_to_grid (a : call_args) : M (gmap string grid_value) :=
  L ← prelude a;
  lift (map_from_prelude a L).

(** The same call with another first argument. *)
Definition with_radars (a : call_args) (radars : radars_arg) : call_args :=
  {| a_radars := radars;
     a_grid_shape := a_grid_shape a;
     a_grid_limits := a_grid_limits a;
     a_grid_origin := a_grid_origin a;
     a_grid_origin_alt := a_grid_origin_alt a;
     a_grid_projection := a_grid_projection a;
     a_fields := a_fields a;
     a_gatefilters := a_gatefilters a;
     a_map_roi := a_map_roi a;
     a_weighting_function := a_weighting_function a;
     a_toa := a_toa a;
     a_roi_func := a_roi_func a;
     a_constant_roi := a_constant_roi a;
     a_z_factor := a_z_factor a;
     a_xy_factor := a_xy_factor a;
     a_min_radius := a_min_radius a;
     a_h_factor := a_h_factor a;
     a_nb := a_nb a;
     a_bsp := a_bsp a;
     a_kwargs := a_kwargs a |}.

(** The same call with another [roi_func]. *)
Definition with_roi_func (a : call_args) (roi_func : roi_arg) : call_args :=
  {| a_radars := a_radars a;
     a_grid_shape := a_grid_shape a;
     a_grid_limits := a_grid_limits a;
     a_grid_origin := a_grid_origin a;
     a_grid_origin_alt := a_grid_origin_alt a;
     a_grid_projection := a_grid_projection a;
     a_fields := a_fields a;
     a_gatefilters := a_gatefilters a;
     a_map_roi := a_map_roi a;
     a_weighting_function := a_weighting_function a;
     a_toa := a_toa a;
     a_roi_func := roi_func;
     a_constant_roi := a_constant_roi a;
     a_z_factor := a_z_factor a;
     a_xy_factor := a_xy_factor a;
     a_min_radius := a_min_radius a;
     a_h_factor := a_h_factor a;
     a_nb := a_nb a;
     a_bsp := a_bsp a;
     a_kwargs := a_kwargs a |}.

End Model.

Arguments mcell F : clear implicits.
Arguments pyval F : clear implicits.
Arguments Radar F : clear implicits.
Arguments radars_arg F : clear implicits.
Arguments RoIFunction F : clear implicits.
Arguments roi_arg F : clear implicits.
Arguments GateToGridMapper F : clear implicits.
Arguments gate_call F : clear implicits.
Arguments accumulator F : clear implicits.
Arguments Collaborators F : clear implicits.
Arguments call_args F : clear implicits.
Arguments prelude_locals F : clear implicits.
Arguments grid_value F : clear implicits.

(** ** Sample inputs over the rationals *)

(** Stand-ins for the imported collaborators: a projection that returns
    the longitudes and latitudes as they are and raises nothing,
    filters that exclude no gate, a mapper that adds one unit of weight to
    every cell and a unit radius grid. *)
Definition sample_collaborators : Collaborators Q :=
  {| uninitialised := λ _, inject_Z 0;
     geographic_to_cartesian := λ lon lat _, Ok (lon, lat);
     geographic_to_cartesian_gates := λ lon lat _, Ok (lon, lat);
     GateFilter_of_radar := λ r,
       {| gate_excluded := replicate (nrays r) (replicate (ngates r) false) |};
     moment_based_gate_filter := λ r _,
       {| gate_excluded := replicate (nrays r) (replicate (ngates r) false) |};
     gatemapper_map_gates_to_grid := λ _ _ acc,
       (acc.1, map2d (λ x, Qplus x (inject_Z 1)) acc.2);
     gatemapper_find_roi_for_grid := λ g _,
       let '(nz, ny, nx) := gm_grid_shape g in
       replicate (Z.to_nat (nz * ny * nx)) (inject_Z 1) |}.

Definition sample_plane (a b c d : Z) (m : bool) : list (list (mcell Q)) :=
  [[ {| m_data := inject_Z a; m_mask := false |};
     {| m_data := inject_Z b; m_mask := m |} ];
   [ {| m_data := inject_Z c; m_mask := false |};
     {| m_data := inject_Z d; m_mask := false |} ]].

(** Two rays of two gates, fields [reflectivity] and [velocity]. *)
Definition radar_a : Radar Q :=
  {| altitude := [inject_Z 100];
     latitude := [inject_Z 36];
     longitude := [inject_Z (-97)];
     fields := <["reflectivity" := sample_plane 10 20 30 40 false]>
                 (<["velocity" := sample_plane 1 2 3 4 true]> ∅);
     nrays := 2;
     ngates := 2;
     gate_x := [[inject_Z 0; inject_Z 0]; [inject_Z 500; inject_Z 1000]];
     gate_y := [[inject_Z 500; inject_Z 1000]; [inject_Z 0; inject_Z 0]];
     gate_longitude := [[inject_Z (-97); inject_Z (-97)];
                        [inject_Z (-96); inject_Z (-96)]];
     gate_latitude := [[inject_Z 36; inject_Z 37]; [inject_Z 36; inject_Z 36]];
     gate_altitude := [[inject_Z 100; inject_Z 150]; [inject_Z 100; inject_Z 150]] |}.

(** A second radar that carries [reflectivity] only. *)
Definition radar_b : Radar Q :=
  {| altitude := [inject_Z 120];
     latitude := [inject_Z 37];
     longitude := [inject_Z (-97)];
     fields := <["reflectivity" := sample_plane 11 21 31 41 false]> ∅;
     nrays := 2;
     ngates := 2;
     gate_x := [[inject_Z 0; inject_Z 0]; [inject_Z 400; inject_Z 800]];
     gate_y := [[inject_Z 400; inject_Z 800]; [inject_Z 0; inject_Z 0]];
     gate_longitude := [[inject_Z (-97); inject_Z (-97)];
                        [inject_Z (-96); inject_Z (-96)]];
     gate_latitude := [[inject_Z 37; inject_Z 38]; [inject_Z 37; inject_Z 37]];
     gate_altitude := [[inject_Z 120; inject_Z 170]; [inject_Z 120; inject_Z 170]] |}.

(** A radar with a single ray: one azimuth only. *)
Definition radar_one_ray : Radar Q :=
  {| altitude := [inject_Z 100];
     latitude := [inject_Z 36];
     longitude := [inject_Z (-97)];
     fields := <["reflectivity" :=
                   [[ {| m_data := inject_Z 10; m_mask := false |};
                      {| m_data := inject_Z 20; m_mask := false |} ]]]> ∅;
     nrays := 1;
     ngates := 2;
     gate_x := [[inject_Z 0; inject_Z 0]];
     gate_y := [[inject_Z 500; inject_Z 1000]];
     gate_longitude := [[inject_Z (-97); inject_Z (-97)]];
     gate_latitude := [[inject_Z 36; inject_Z 37]];
     gate_altitude := [[inject_Z 100; inject_Z 150]] |}.

Definition sample_shape : Z * Z * Z := (1, 2, 2).

Definition sample_limits : (Q * Q) * (Q * Q) * (Q * Q) :=
  ((inject_Z 0, inject_Z 0),
   (inject_Z (-1000), inject_Z 1000),
   (inject_Z (-1000), inject_Z 1000)).

(** [map_gates_to_grid(radar_a, (1, 2, 2), limits)], all defaults. *)
Definition sample_call : call_args Q :=
  default_args (OneRadar radar_a) sample_shape sample_limits.

(** A radar whose rays hold no gate. *)
Definition radar_no_gates : Radar Q :=
  {| altitude := [inject_Z 100];
     latitude := [inject_Z 36];
     longitude := [inject_Z (-97)];
     fields := ∅;
     nrays := 2;
     ngates := 0;
     gate_x := [[]; []];
     gate_y := [[]; []];
     gate_longitude := [[]; []];
     gate_latitude := [[]; []];
     gate_altitude := [[]; []] |}.

(** A radar on a moving platform: its position is an array of two
    values. *)
Definition radar_moving : Radar Q :=
  {| altitude := [inject_Z 100; inject_Z 300];
     latitude := [inject_Z 36; inject_Z 38];
     longitude := [inject_Z (-97); inject_Z (-95)];
     fields := <["reflectivity" := sample_plane 10 20 30 40 false]> ∅;
     nrays := 2;
     ngates := 2;
     gate_x := [[inject_Z 0; inject_Z 0]; [inject_Z 500; inject_Z 1000]];
     gate_y := [[inject_Z 500; inject_Z 1000]; [inject_Z 0; inject_Z 0]];
     gate_longitude := [[inject_Z (-97); inject_Z (-97)];
                        [inject_Z (-96); inject_Z (-96)]];
     gate_latitude := [[inject_Z 36; inject_Z 37]; [inject_Z 36; inject_Z 36]];
     gate_altitude := [[inject_Z 100; inject_Z 150]; [inject_Z 100; inject_Z 150]] |}.

(** A call without any radar in which nothing is left to be read off the
    first radar: origin, altitude and fields are given. *)
Definition sample_empty_call : call_args Q :=
  {| a_radars := RadarSeq [];
     a_grid_shape := sample_shape;
     a_grid_limits := sample_limits;
     a_grid_origin := Some (inject_Z 36, inject_Z (-97));
     a_grid_origin_alt := Some (inject_Z 100);
     a_grid_projection := None;
     a_fields := Some ["reflectivity"];
     a_gatefilters := GatefiltersFalse;
     a_map_roi := true;
     a_weighting_function := "Cressman";
     a_toa := inject_Z 17000;
     a_roi_func := RoiName "max_space";
     a_constant_roi := inject_Z 500;
     a_z_factor := inject_Z 0;
     a_xy_factor := inject_Z 0;
     a_min_radius := inject_Z 500;
     a_h_factor := inject_Z 1;
     a_nb := inject_Z 1;
     a_bsp := inject_Z 1;
     a_kwargs := ∅ |}.

(** A call on [radar_a] and [radar_b] with an explicit field list;
    [radar_b] carries no [velocity]. *)
Definition sample_missing_field_call : call_args Q :=
  {| a_radars := RadarSeq [radar_a; radar_b];
     a_grid_shape := sample_shape;
     a_grid_limits := sample_limits;
     a_grid_origin := None;
     a_grid_origin_alt := None;
     a_grid_projection := None;
     a_fields := Some ["reflectivity"; "velocity"];
     a_gatefilters := GatefiltersFalse;
     a_map_roi := true;
     a_weighting_function := "Cressman";
     a_toa := inject_Z 17000;
     a_roi_func := RoiName "dist_beam";
     a_constant_roi := inject_Z 500;
     a_z_factor := inject_Z 0;
     a_xy_factor := inject_Z 0;
     a_min_radius := inject_Z 500;
     a_h_factor := inject_Z 1;
     a_nb := inject_Z 1;
     a_bsp := inject_Z 1;
     a_kwargs := ∅ |}.

(** * Properties *)

(** The rationals satisfy the two laws. *)
#[global] Instance Q_FloatLaws : FloatLaws Q.
Proof.
  split.
  - intros w Hpos. cbn in *. apply negb_true_iff in Hpos.
    destruct (Qeq_bool w (inject_Z 0)) eqn:E; [|reflexivity].
    apply Qeq_bool_iff in E.
    assert (Hle : Qle_bool w (inject_Z 0) = true).
    { apply Qle_bool_iff. rewrite E. apply Qle_refl. }
    congruence.
  - intros n _ Hn. cbn.
    destruct (Qeq_bool _ _) eqn:E; [|reflexivity].
    apply Qeq_bool_iff in E. exfalso. apply Hn.
    unfold Qeq in E. simpl in E. lia.
Qed.

(** So do the rationals with a non-finite value. *)
#[global] Instance XQ_FloatLaws : FloatLaws (option Q).
Proof.
  split.
  - intros [w|] Hpos; cbn in *; [|done]. apply negb_true_iff in Hpos.
    destruct (Qeq_bool w (inject_Z 0)) eqn:E; [|reflexivity].
    apply Qeq_bool_iff in E.
    assert (Hle : Qle_bool w (inject_Z 0) = true).
    { apply Qle_bool_iff. rewrite E. apply Qle_refl. }
    congruence.
  - intros n _ Hn. cbn.
    destruct (Qeq_bool _ _) eqn:E; [|reflexivity].
    apply Qeq_bool_iff in E. exfalso. apply Hn.
    unfold Qeq in E. simpl in E. lia.
Qed.

(** ** Strings *)

Lemma upper_idem `{!PyStr} (s : string) : upper (upper s) = upper s.
Proof. apply upper_idempotent. Qed.


(** ** The monads *)

Lemma mapR_cons_raise {A B} (f : A → result B) (x : A) (l : list A) (e : exn) :
  f x = Raise e → mapR f (x :: l) = Raise e.
Proof. intros Hx. simpl. by rewrite Hx. Qed.

Lemma mapR_cons_rest_raise {A B} (f : A → result B) (x : A) (l : list A)
    (y : B) (e : exn) :
  f x = Ok y → mapR f l = Raise e → mapR f (x :: l) = Raise e.
Proof. intros Hx Hl. simpl. by rewrite Hx, Hl. Qed.

Lemma mapR_lookup {A B} (f : A → result B) (l : list A) (l' : list B)
    (i : nat) (x : A) :
  mapR f l = Ok l' → l !! i = Some x → ∃ y, f x = Ok y ∧ l' !! i = Some y.
Proof.
  revert l' i. induction l as [|a l IH]; intros l' i Hmap Hi; [done|].
  simpl in Hmap.
  destruct (f a) as [y|e] eqn:Hfa; [|done]. simpl in Hmap.
  destruct (mapR f l) as [ys|e] eqn:Hrest; [|done]. simpl in Hmap.
  injection Hmap as <-.
  destruct i as [|i]; simpl in *.
  - injection Hi as <-. eauto.
  - by apply IH.
Qed.

Lemma foldR_raise {A S} (f : S → A → result S) (l : list A) (x : A) (s : S) :
  x ∈ l → (∀ s', ∃ e, f s' x = Raise e) → ∃ e, foldR f s l = Raise e.
Proof.
  revert s. induction l as [|a l IH]; intros s Hin Hx;
    [by apply elem_of_nil in Hin|].
  simpl. destruct (f s a) as [s'|e] eqn:Hfa; [|eauto]. simpl.
  apply elem_of_cons in Hin as [->|Hin].
  - destruct (Hx s) as [e He]. congruence.
  - by apply IH.
Qed.

Lemma M_bind_unfold {A B} (m : M A) (k : A → M B) (w : list warning) :
  (m ≫= k) w = match m w with
               | (Ok a, w') => k a w'
               | (Raise e, w') => (Raise e, w')
               end.
Proof. reflexivity. Qed.

Lemma M_bind_lift {A B} (r : result A) (k : A → M B) (w : list warning) :
  (lift r ≫= k) w = match r with
                    | Ok a => k a w
                    | Raise e => (Raise e, w)
                    end.
Proof. by destruct r. Qed.

(** ** [_detemine_cy_weighting_func] *)

Section Resolver.
Context `{!PyStr}.

Lemma detemine_barnes2 (s : string) (w : list warning) :
  upper s = "BARNES2" → _detemine_cy_weighting_func s w = (Ok 3, w).
Proof. intros Hs. unfold _detemine_cy_weighting_func. by rewrite Hs. Qed.

Lemma detemine_nearest (s : string) (w : list warning) :
  upper s = "NEAREST" → _detemine_cy_weighting_func s w = (Ok 2, w).
Proof. intros Hs. unfold _detemine_cy_weighting_func. by rewrite Hs. Qed.

Lemma detemine_cressman (s : string) (w : list warning) :
  upper s = "CRESSMAN" → _detemine_cy_weighting_func s w = (Ok 1, w).
Proof. intros Hs. unfold _detemine_cy_weighting_func. by rewrite Hs. Qed.

Lemma detemine_barnes (s : string) (w : list warning) :
  upper s = "BARNES" →
  _detemine_cy_weighting_func s w = (Ok 0, (w ++ [barnes_deprecation])%list).
Proof. intros Hs. unfold _detemine_cy_weighting_func. by rewrite Hs. Qed.


(** The resolver issues at most the one deprecation warning. *)
Lemma detemine_warnings (s : string) (w : list warning) :
  (_detemine_cy_weighting_func s w).2 = w
  ∨ (_detemine_cy_weighting_func s w).2 = (w ++ [barnes_deprecation])%list.
Proof.
  unfold _detemine_cy_weighting_func.
  repeat (destruct (String.eqb _ _); [by (left + right)|]). by left.
Qed.

End Resolver.

Section Proofs.
Context {F : Type} `{!Float F} `{!PyStr} `{!Collaborators F}.

(** The tag and the warnings of the prelude are those of one run of the
    resolver on the warnings the call started with. *)
Lemma prelude_resolves_once (a : call_args F) (L : prelude_locals F)
    (w w' : list warning) :
  prelude a w = (Ok L, w') →
  _detemine_cy_weighting_func (a_weighting_function a) w
  = (Ok (l_cy_weighting_function L), w').
Proof.
  unfold prelude. rewrite M_bind_lift.
  destruct (find_grid_origin_alt _ _) as [alt|e]; [|done].
  rewrite M_bind_lift.
  destruct (_parse_gatefilters _ _) as [gfs|e]; [|done].
  rewrite M_bind_unfold.
  destruct (_detemine_cy_weighting_func _ w) as [[cy|e] w1]; [|done].
  rewrite M_bind_lift. destruct (_find_projparams _ _ _) as [pp|e]; [|done].
  rewrite M_bind_lift. destruct (_determine_fields _ _) as [fs|e]; [|done].
  rewrite M_bind_lift.
  destruct (_find_grid_params _ _) as [[starts steps]|e]; [|done].
  rewrite M_bind_lift. destruct (_find_offsets _ _ _) as [offs|e]; [|done].
  intros [= <- <-]. reflexivity.
Qed.

(** Whatever happens, a call issues the warnings of at most one run of
    the resolver. *)
Lemma map_gates_to_grid_warnings (a : call_args F) (w : list warning) :
  (map_gates_to_grid a w).2 = w
  ∨ (map_gates_to_grid a w).2
    = (_detemine_cy_weighting_func (a_weighting_function a) w).2.
Proof.
  unfold map_gates_to_grid. rewrite M_bind_unfold.
  unfold prelude. rewrite M_bind_lift.
  destruct (find_grid_origin_alt _ _) as [alt|e]; [|by left].
  rewrite M_bind_lift.
  destruct (_parse_gatefilters _ _) as [gfs|e]; [|by left].
  rewrite M_bind_unfold.
  destruct (_detemine_cy_weighting_func _ w) as [[cy|e] w1]; [|by right].
  rewrite M_bind_lift. destruct (_find_projparams _ _ _) as [pp|e]; [|by right].
  rewrite M_bind_lift. destruct (_determine_fields _ _) as [fs|e]; [|by right].
  rewrite M_bind_lift.
  destruct (_find_grid_params _ _) as [[starts steps]|e]; [|by right].
  rewrite M_bind_lift. destruct (_find_offsets _ _ _) as [offs|e]; [|by right].
  by right.
Qed.

Lemma gate_call_of_weighting (radar : Radar F) (gatefilter : gatefilter_item)
    (fields_ : list string) (kwargs : gmap string (pyval F)) (skip_transform : bool)
    (projparams : gmap string (pyval F)) (grid_origin_alt toa : F)
    (roi_func : RoIFunction F) (cy : Z) (max_az_spacing : option F)
    (call : gate_call F) :
  gate_call_of radar gatefilter fields_ kwargs skip_transform projparams
    grid_origin_alt toa roi_func cy max_az_spacing = Ok call →
  gc_weighting_function call = cy.
Proof.
  unfold gate_call_of.
  destruct (copy_field_data radar fields_) as [[fd fm]|e]; [|done]. simpl.
  destruct (if skip_transform then _ else _) as [[gx gy]|e]; [|done]. simpl.
  destruct max_az_spacing as [m|]; [|done]. simpl.
  by intros [= <-].
Qed.

(** C7: the name of the weighting function is turned into its tag by
    [_detemine_cy_weighting_func], whatever the case of its letters: Barnes
    gives 0 and a deprecation warning, Cressman 1, Nearest 2, Barnes2 3.
    The prelude of a call runs the resolver once, before the loop over the
    radars, and every call of the gate mapper made by the loop receives
    the tag so obtained. *)
Theorem weighting_function_resolved_once (s : string) (w : list warning) :
  (upper s = "BARNES" →
     _detemine_cy_weighting_func s w = (Ok 0, (w ++ [barnes_deprecation])%list))
  ∧ (upper s = "CRESSMAN" → _detemine_cy_weighting_func s w = (Ok 1, w))
  ∧ (upper s = "NEAREST" → _detemine_cy_weighting_func s w = (Ok 2, w))
  ∧ (upper s = "BARNES2" → _detemine_cy_weighting_func s w = (Ok 3, w))
  ∧ (∀ t, upper t = upper s →
       _detemine_cy_weighting_func t w = _detemine_cy_weighting_func s w)
  ∧ (∀ (a : call_args F) (L : prelude_locals F) (w' : list warning),
       a_weighting_function a = s → prelude a w = (Ok L, w') →
       _detemine_cy_weighting_func s w = (Ok (l_cy_weighting_function L), w')
       ∧ ∀ radar gatefilter max_az_spacing roi_func call,
           gate_call_of radar gatefilter (l_fields L) (a_kwargs a)
             (l_skip_transform L) (l_projparams L) (l_grid_origin_alt L)
             (a_toa a) roi_func (l_cy_weighting_function L) max_az_spacing
           = Ok call →
           gc_weighting_function call = l_cy_weighting_function L)
  ∧ (∀ a : call_args F, a_weighting_function a = s →
       (map_gates_to_grid a w).2 = w
       ∨ (map_gates_to_grid a w).2 = (_detemine_cy_weighting_func s w).2).
Proof.
  repeat split.
  - apply detemine_barnes.
  - apply detemine_cressman.
  - apply detemine_nearest.
  - apply detemine_barnes2.
  - intros t Ht. unfold _detemine_cy_weighting_func. by rewrite Ht.
  - subst s. by apply prelude_resolves_once.
  - intros radar gatefilter mas roi call. apply gate_call_of_weighting.
  - intros a <-. apply map_gates_to_grid_warnings.
Qed.

(** ** [_find_grid_params] *)

(** The step of one axis as lines 284-295 compute it: no conversion and
    no division is attempted for a single cell; otherwise the size must
    convert to a float, and the divisor is then not zero. *)
Lemma axis_step_ok `{!FloatLaws F} (n : Z) (start stop : F) :
  n = 1 ∨ float_overflow n = false →
  (if n =? 1 then Ok fzero
   else m ← py_float_of_int n; py_truediv (fsub stop start) (fsub m fone))
  = Ok (if decide (n = 1) then fzero
        else fdiv (fsub stop start) (fsub (of_int n) fone)).
Proof.
  intros Hconv. destruct (Z.eqb_spec n 1) as [->|Hn].
  - by rewrite decide_True.
  - destruct Hconv as [|Hconv]; [done|].
    rewrite decide_False by done. unfold py_float_of_int, py_truediv.
    rewrite Hconv. simpl. by rewrite of_int_sub_one.
Qed.

Lemma axis_step_overflow (n : Z) (start stop : F) :
  n ≠ 1 → float_overflow n = true →
  (if n =? 1 then Ok fzero
   else m ← py_float_of_int n; py_truediv (fsub stop start) (fsub m fone))
  = Raise OverflowError.
Proof.
  intros Hn Hover. destruct (Z.eqb_spec n 1) as [|_]; [done|].
  unfold py_float_of_int. by rewrite Hover.
Qed.

(** C8, as the code has it: for a grid of at least one cell along every
    axis whose sizes convert to a float, [_find_grid_params] returns the
    three lower limits as starts and, per axis, the step 0 when the axis
    has one cell and (stop - start) / (size - 1) when it has more; it
    raises nothing. *)
Theorem find_grid_params_steps `{!FloatLaws F} (nz ny nx : Z)
    (z_start z_stop y_start y_stop x_start x_stop : F) :
  1 ≤ nz → 1 ≤ ny → 1 ≤ nx →
  float_overflow nz = false → float_overflow ny = false →
  float_overflow nx = false →
  ∃ z_step y_step x_step : F,
    _find_grid_params (nz, ny, nx)
      ((z_start, z_stop), (y_start, y_stop), (x_start, x_stop))
    = Ok ((z_start, y_start, x_start), (z_step, y_step, x_step))
    ∧ (nz = 1 → z_step = fzero)
    ∧ (1 < nz → z_step = fdiv (fsub z_stop z_start) (fsub (of_int nz) fone))
    ∧ (ny = 1 → y_step = fzero)
    ∧ (1 < ny → y_step = fdiv (fsub y_stop y_start) (fsub (of_int ny) fone))
    ∧ (nx = 1 → x_step = fzero)
    ∧ (1 < nx → x_step = fdiv (fsub x_stop x_start) (fsub (of_int nx) fone)).
Proof.
  intros Hz Hy Hx Hcz Hcy Hcx. unfold _find_grid_params.
  rewrite !axis_step_ok by (by right). simpl.
  eexists _, _, _. split; [reflexivity|].
  repeat split; intros Hn; case_decide; (done || lia).
Qed.

(** ** [_determine_fields] *)

Lemma elem_of_foldl_intersection (rs : list (Radar F)) (s0 : gset string)
    (f : string) :
  f ∈ foldl (λ (acc : gset string) radar, acc ∩ dom (fields radar)) s0 rs
  ↔ f ∈ s0 ∧ ∀ r, r ∈ rs → f ∈ (dom (fields r) : gset string).
Proof.
  revert s0. induction rs as [|r rs IH]; intros s0; simpl.
  - split; [intros Hf; split; [done|]|by intros [Hf _]].
    intros r Hr. by apply elem_of_nil in Hr.
  - rewrite IH, elem_of_intersection. split.
    + intros [[Hs Hr] Hrs]. split; [done|].
      intros r' [->|Hr']%elem_of_cons; [done|by apply Hrs].
    + intros [Hs Hall]. split; [split; [done|]|].
      * apply Hall. by left.
      * intros r' Hr'. apply Hall. by right.
Qed.

(** C9: without an explicit field list, and with at least one radar,
    [_determine_fields] returns a list without repetition whose members are
    exactly the field names that every radar carries. *)
Theorem determine_fields_intersection (radar0 : Radar F) (rest : list (Radar F)) :
  ∃ l : list string,
    _determine_fields None (radar0 :: rest) = Ok l
    ∧ NoDup l
    ∧ ∀ f : string,
        f ∈ l ↔ ∀ r, r ∈ radar0 :: rest → is_Some (fields r !! f).
Proof.
  eexists. split; [reflexivity|]. split; [apply NoDup_elements|].
  intros f. rewrite elem_of_elements, elem_of_foldl_intersection. simpl.
  split.
  - intros [H0 Hrest] r [->|Hr]%elem_of_cons.
    + by apply elem_of_dom.
    + apply elem_of_dom. by apply Hrest.
  - intros Hall. split.
    + apply elem_of_dom, Hall. by left.
    + intros r Hr. apply elem_of_dom, Hall. by right.
Qed.

(** ** A single radar as first argument *)

(** The call reads its first argument only through the tuple made on
    lines 103-104. *)
Lemma call_reads_radars_tuple (a : call_args F) (radars1 radars2 : radars_arg F) :
  radars_tuple radars1 = radars_tuple radars2 →
  map_gates_to_grid (with_radars a radars1)
  = map_gates_to_grid (with_radars a radars2).
Proof.
  intros Htuple. unfold map_gates_to_grid, prelude, map_from_prelude. simpl.
  by rewrite Htuple.
Qed.

(** C10: a call whose first argument is the radar [r] is the same
    computation as the call whose first argument is the tuple [(r,)],
    whatever the other arguments: both work on the one-element tuple, and
    have the same outcome and the same warnings. *)
Theorem single_radar_as_tuple (r : Radar F) (a : call_args F) :
  radars_tuple (a_radars (with_radars a (OneRadar r))) = [r]
  ∧ radars_tuple (a_radars (with_radars a (RadarSeq [r]))) = [r]
  ∧ map_gates_to_grid (with_radars a (OneRadar r))
    = map_gates_to_grid (with_radars a (RadarSeq [r]))
  ∧ ∀ w : list warning,
      map_gates_to_grid (with_radars a (OneRadar r)) w
      = map_gates_to_grid (with_radars a (RadarSeq [r])) w.
Proof.
  assert (Hcall : map_gates_to_grid (with_radars a (OneRadar r))
                  = map_gates_to_grid (with_radars a (RadarSeq [r]))).
  { by apply call_reads_radars_tuple. }
  split; [reflexivity|]. split; [reflexivity|]. split; [exact Hcall|].
  intros w. by rewrite Hcall.
Qed.

(** ** Errors of the prelude reach the caller *)

Lemma prelude_raise (a : call_args F) (e : exn) (w w' : list warning) :
  prelude a w = (Raise e, w') → map_gates_to_grid a w = (Raise e, w').
Proof.
  intros Hp. unfold map_gates_to_grid. by rewrite M_bind_unfold, Hp.
Qed.

Lemma prelude_ok (a : call_args F) (L : prelude_locals F) (w w' : list warning) :
  prelude a w = (Ok L, w') →
  map_gates_to_grid a w = (map_from_prelude a L, w').
Proof.
  intros Hp. unfold map_gates_to_grid. by rewrite M_bind_unfold, Hp.
Qed.

Lemma prelude_radars (a : call_args F) (L : prelude_locals F)
    (w w' : list warning) :
  prelude a w = (Ok L, w') → l_radars L = radars_tuple (a_radars a).
Proof.
  unfold prelude. rewrite M_bind_lift.
  destruct (find_grid_origin_alt _ _) as [alt|e]; [|done].
  rewrite M_bind_lift.
  destruct (_parse_gatefilters _ _) as [gfs|e]; [|done].
  rewrite M_bind_unfold.
  destruct (_detemine_cy_weighting_func _ w) as [[cy|e] w1]; [|done].
  rewrite M_bind_lift. destruct (_find_projparams _ _ _) as [pp|e]; [|done].
  rewrite M_bind_lift. destruct (_determine_fields _ _) as [fs|e]; [|done].
  rewrite M_bind_lift.
  destruct (_find_grid_params _ _) as [[starts steps]|e]; [|done].
  rewrite M_bind_lift. destruct (_find_offsets _ _ _) as [offs|e]; [|done].
  by intros [= <- <-].
Qed.



(** ** The local [max_az_spacing] (lines 123-134) *)

Lemma max_space_step_raises (max_space_radars : list F) (radar : Radar F) :
  ∃ e, max_space_step max_space_radars radar = Raise e.
Proof.
  unfold max_space_step.
  destruct (last_column _ (gate_x radar)) as [gx|e]; [|by eexists]. simpl.
  destruct (last_column _ (gate_y radar)) as [gy|e]; by eexists.
Qed.

Lemma max_space_step_append (max_space_radars : list F) (radar : Radar F)
    (gx gy : list F) :
  last_column (ngates radar) (gate_x radar) = Ok gx →
  last_column (ngates radar) (gate_y radar) = Ok gy →
  max_space_step max_space_radars radar
  = Raise (AttributeError "'numpy.ndarray' object has no attribute 'append'").
Proof. intros Hx Hy. unfold max_space_step. by rewrite Hx, Hy. Qed.

(** With [roi_func == 'max_space'] the loop raises at its first radar,
    and without any radar the maximum of the empty buffer raises. *)
Lemma max_space_raises (radars : list (Radar F)) :
  ∃ e, max_az_spacing_local (RoiName "max_space") radars = Raise e.
Proof.
  unfold max_az_spacing_local. simpl.
  destruct radars as [|radar0 rest]; simpl; [by eexists|].
  destruct (max_space_step_raises (np_empty (S (length rest))) radar0)
    as [e ->].
  by eexists.
Qed.

Lemma roi_is_name (roi_func : roi_arg F) (name : string) :
  roi_is roi_func name = true → roi_func = RoiName name.
Proof.
  destruct roi_func as [s|r]; simpl; [|done].
  by intros ->%String.eqb_eq.
Qed.

(** As written, no call returns a grid: line 134 reads [max_az_spacing],
    which has a value only if the branch of line 124 completed, and that
    branch raises. *)
Lemma map_from_prelude_raises (a : call_args F) (L : prelude_locals F) :
  ∃ e, map_from_prelude a L = Raise e.
Proof.
  unfold map_from_prelude.
  destruct (roi_is (a_roi_func a) "max_space") eqn:Hroi.
  - apply roi_is_name in Hroi. rewrite Hroi.
    destruct (max_space_raises (l_radars L)) as [e ->]. by eexists.
  - unfold max_az_spacing_local. rewrite Hroi. by eexists.
Qed.

Lemma map_gates_to_grid_raises (a : call_args F) (w : list warning) :
  ∃ e w', map_gates_to_grid a w = (Raise e, w').
Proof.
  destruct (prelude a w) as [[L|e] w'] eqn:Hp.
  - rewrite (prelude_ok _ _ _ _ Hp).
    destruct (map_from_prelude_raises a L) as [e ->]. by eexists _, _.
  - rewrite (prelude_raise _ _ _ _ Hp). by eexists _, _.
Qed.


(** C6, on the code: the header of [_parse_roi_func] is not a parameter
    list, and for each of the names 'constant', 'dist' and 'dist_beam' a
    call whose prelude completes ends on line 134 with
    [UnboundLocalError] for [max_az_spacing]. *)
Theorem max_az_spacing_unbound (a : call_args F) (s : string)
    (L : prelude_locals F) (w w' : list warning) :
  a_roi_func a = RoiName s →
  s = "constant" ∨ s = "dist" ∨ s = "dist_beam" →
  prelude a w = (Ok L, w') →
  parse_parameters _parse_roi_func_header = None
  ∧ parse_parameters
      (take 17 _parse_roi_func_header
       ++ COMMA :: drop 17 _parse_roi_func_header)%list
    = Some _parse_roi_func_call_arguments
  ∧ max_az_spacing_local (a_roi_func a) (l_radars L) = Ok None
  ∧ map_gates_to_grid a w = (Raise (UnboundLocalError "max_az_spacing"), w').
Proof.
  intros Hroi Hs Hp.
  split; [reflexivity|]. split; [reflexivity|].
  assert (Hnone : max_az_spacing_local (a_roi_func a) (l_radars L) = Ok None).
  { rewrite Hroi. unfold max_az_spacing_local.
    by destruct Hs as [->|[->| ->]]. }
  split; [done|].
  rewrite (prelude_ok _ _ _ _ Hp). unfold map_from_prelude.
  by rewrite Hnone.
Qed.

(** C2, on the code: with [roi_func == 'max_space'] and at least one
    radar, the first pass through the loop of lines 125-129 ends with
    [AttributeError], because the buffer made by [np.empty] has no
    [append]; no maximum spacing and no radius is computed. *)
Theorem max_space_buffer_append_raises (a : call_args F)
    (radar0 : Radar F) (rest : list (Radar F)) (gx gy : list F)
    (L : prelude_locals F) (w w' : list warning) :
  a_roi_func a = RoiName "max_space" →
  radars_tuple (a_radars a) = radar0 :: rest →
  last_column (ngates radar0) (gate_x radar0) = Ok gx →
  last_column (ngates radar0) (gate_y radar0) = Ok gy →
  prelude a w = (Ok L, w') →
  max_az_spacing_local (RoiName "max_space") (radar0 :: rest)
  = Raise (AttributeError "'numpy.ndarray' object has no attribute 'append'")
  ∧ map_gates_to_grid a w
    = (Raise (AttributeError "'numpy.ndarray' object has no attribute 'append'"),
       w').
Proof.
  intros Hroi Hradars Hx Hy Hp.
  assert (Hloc : max_az_spacing_local (RoiName "max_space") (radar0 :: rest)
    = Raise (AttributeError "'numpy.ndarray' object has no attribute 'append'")).
  { unfold max_az_spacing_local. simpl.
    by rewrite (max_space_step_append _ _ _ _ Hx Hy). }
  split; [done|].
  rewrite (prelude_ok _ _ _ _ Hp). unfold map_from_prelude.
  by rewrite (prelude_radars _ _ _ _ Hp), Hroi, Hradars, Hloc.
Qed.

(** ** A requested field that a radar does not carry (lines 151-154) *)

(** The loop of lines 151-154 stops at the first requested field that
    the radar lacks. *)
Lemma field_arrays_first_missing (radar : Radar F) (fields_ : list string)
    (f : string) :
  f ∈ fields_ → fields radar !! f = None →
  ∃ (i : nat) (g : string),
    fields_ !! i = Some g ∧ fields radar !! g = None
    ∧ (∀ j f', (j < i)%nat → fields_ !! j = Some f' →
         is_Some (fields radar !! f'))
    ∧ mapR (field_array radar) fields_ = Raise (KeyError g).
Proof.
  induction fields_ as [|x fs IH]; intros Hin Hf; [by apply elem_of_nil in Hin|].
  destruct (fields radar !! x) as [fdata|] eqn:Hx.
  - apply elem_of_cons in Hin as [->|Hin]; [congruence|].
    destruct (IH Hin Hf) as (i & g & Hi & Hgnone & Hbefore & Hmap).
    exists (S i), g. split; [done|]. split; [done|]. split.
    + intros [|j] f' Hj Hf'; simpl in Hf'.
      * injection Hf' as <-. by eexists.
      * apply (Hbefore j f'); [lia|done].
    + apply (mapR_cons_rest_raise _ _ _ fdata); [|done].
      unfold field_array. by rewrite Hx.
  - exists 0%nat, x. split; [done|]. split; [done|]. split.
    + intros j f' Hj. lia.
    + apply mapR_cons_raise. unfold field_array. by rewrite Hx.
Qed.

(** C5, as the code has it: an explicit field list is taken as given,
    and when a radar lacks one of its names, gathering that radar's field
    data raises [KeyError] for the first name of the list that the radar
    lacks.  Nothing in the loop handles the exception: the iteration
    ends with it, and so does the loop over the radars, with that
    [KeyError] when the radar is the first of the loop. *)
Theorem missing_field_raises_KeyError (radar : Radar F) (fields_ : list string)
    (f : string) :
  f ∈ fields_ → fields radar !! f = None →
  ∃ (i : nat) (g : string),
    fields_ !! i = Some g ∧ fields radar !! g = None
    ∧ (∀ j f', (j < i)%nat → fields_ !! j = Some f' →
         is_Some (fields radar !! f'))
    ∧ (∀ radars : list (Radar F),
         _determine_fields (Some fields_) radars = Ok fields_)
    ∧ copy_field_data radar fields_ = Raise (KeyError g)
    ∧ (∀ gatefilter kwargs skip_transform projparams grid_origin_alt toa
         roi_func cy max_az_spacing,
         gate_call_of radar gatefilter fields_ kwargs skip_transform projparams
           grid_origin_alt toa roi_func cy max_az_spacing
         = Raise (KeyError g))
    ∧ (∀ gatemapper radars gatefilters gatefilter kwargs skip_transform
         projparams grid_origin_alt toa roi_func cy max_az_spacing grids,
         (radar, gatefilter) ∈ zip radars gatefilters →
         ∃ e, map_all_gates gatemapper radars gatefilters fields_ kwargs
                skip_transform projparams grid_origin_alt toa roi_func cy
                max_az_spacing grids = Raise e)
    ∧ (∀ gatemapper radars gatefilters gatefilter kwargs skip_transform
         projparams grid_origin_alt toa roi_func cy max_az_spacing grids,
         map_all_gates gatemapper (radar :: radars) (gatefilter :: gatefilters)
           fields_ kwargs skip_transform projparams grid_origin_alt toa
           roi_func cy max_az_spacing grids = Raise (KeyError g)).
Proof.
  intros Hin Hf.
  destruct (field_arrays_first_missing radar fields_ f Hin Hf)
    as (i & g & Hi & Hgnone & Hbefore & Hmap).
  assert (Hcopy : copy_field_data radar fields_ = Raise (KeyError g)).
  { unfold copy_field_data. by rewrite Hmap. }
  assert (Hcall : ∀ gatefilter kwargs skip_transform projparams grid_origin_alt
            toa roi_func cy max_az_spacing,
            gate_call_of radar gatefilter fields_ kwargs skip_transform
              projparams grid_origin_alt toa roi_func cy max_az_spacing
            = Raise (KeyError g)).
  { intros. unfold gate_call_of. by rewrite Hcopy. }
  exists i, g. repeat split; try done.
  - intros gm radars gfs gf kw st pp goa toa roi cy mas grids Hzip.
    unfold map_all_gates.
    apply (foldR_raise _ _ (radar, gf)); [done|].
    intros s'. simpl. rewrite Hcall. by eexists.
  - intros gm radars gfs gf kw st pp goa toa roi cy mas grids.
    unfold map_all_gates. simpl. by rewrite Hcall.
Qed.

(** ** The finalizer (lines 181-190) *)

Lemma mapR_length {A B} (f : A → result B) (l : list A) (l' : list B) :
  mapR f l = Ok l' → length l' = length l.
Proof.
  revert l'. induction l as [|a l IH]; intros l' Hmap; simpl in Hmap.
  - by injection Hmap as <-.
  - destruct (f a) as [y|e]; [|done]. simpl in Hmap.
    destruct (mapR f l) as [ys|e]; [|done]. simpl in Hmap.
    injection Hmap as <-. simpl. by rewrite (IH ys).
Qed.

Lemma mapR_ok_exists {A B} (f : A → result B) (l : list A) :
  (∀ x, x ∈ l → ∃ y, f x = Ok y) → ∃ l', mapR f l = Ok l'.
Proof.
  induction l as [|a l IH]; intros Hall; [by eexists|].
  destruct (Hall a) as [y Hy]; [by left|].
  destruct IH as [ys Hys]; [intros x Hx; apply Hall; by right|].
  exists (y :: ys). simpl. by rewrite Hy, Hys.
Qed.

Lemma slice_last_ok {A} (i n : nat) (a : list (list A)) :
  Forall (λ cell, length cell = n) a → (i < n)%nat →
  ∃ l, slice_last i a = Ok l.
Proof.
  intros Hshape Hi. apply mapR_ok_exists. intros cell Hcell.
  rewrite Forall_forall in Hshape. specialize (Hshape cell Hcell).
  destruct (lookup_lt_is_Some_2 cell i) as [x Hx]; [lia|].
  exists x. by rewrite Hx.
Qed.

Lemma slice_last_lookup {A} (i : nat) (a : list (list A)) (l : list A)
    (c : nat) (row : list A) (x : A) :
  slice_last i a = Ok l → a !! c = Some row → row !! i = Some x →
  l !! c = Some x.
Proof.
  intros Hslice Hrow Hx.
  destruct (mapR_lookup _ _ _ _ _ Hslice Hrow) as (y & Hy & Hl).
  rewrite Hx in Hy. by injection Hy as <-.
Qed.

(** Row [c] of [mweight] and of [msum] (lines 182-183). *)
Lemma mweight_row (grid_wsum : list (list F)) (c : nat) (wrow : list F) :
  grid_wsum !! c = Some wrow →
  masked_equal_zero grid_wsum !! c
  = Some ((λ x, {| m_data := x; m_mask := feqb x fzero |}) <$> wrow).
Proof.
  intros Hw. unfold masked_equal_zero, map2d.
  by rewrite list_lookup_fmap, Hw.
Qed.

Lemma msum_row (grid_sum grid_wsum : list (list F)) (c : nat)
    (srow wrow : list F) :
  grid_sum !! c = Some srow → grid_wsum !! c = Some wrow →
  masked_array grid_sum (map2d m_mask (masked_equal_zero grid_wsum)) !! c
  = Some (zip_with Build_mcell srow ((λ x, feqb x fzero) <$> wrow)).
Proof.
  intros Hs Hw. unfold masked_array. rewrite lookup_zip_with, Hs. simpl.
  unfold map2d at 1. rewrite list_lookup_fmap, (mweight_row _ _ _ Hw). simpl.
  by rewrite <- list_fmap_compose.
Qed.

Lemma mweight_shape (ncells nfields : nat) (grid_wsum : list (list F)) :
  has_shape ncells nfields grid_wsum →
  has_shape ncells nfields (masked_equal_zero grid_wsum).
Proof.
  intros [Hlen Hrows]. unfold masked_equal_zero, map2d. split.
  - by rewrite length_fmap.
  - apply Forall_fmap. eapply Forall_impl; [exact Hrows|].
    intros row Hrow. simpl. by rewrite length_fmap.
Qed.

Lemma msum_shape (ncells nfields : nat) (grid_sum grid_wsum : list (list F)) :
  has_shape ncells nfields grid_sum → has_shape ncells nfields grid_wsum →
  has_shape ncells nfields
    (masked_array grid_sum (map2d m_mask (masked_equal_zero grid_wsum))).
Proof.
  intros [Hslen Hsrows] [Hwlen Hwrows]. split.
  - unfold masked_array, masked_equal_zero, map2d.
    rewrite length_zip_with, !length_fmap. lia.
  - apply Forall_lookup. intros c row Hrow.
    destruct (grid_sum !! c) as [srow|] eqn:Hs.
    2:{ unfold masked_array in Hrow. rewrite lookup_zip_with, Hs in Hrow. done. }
    destruct (grid_wsum !! c) as [wrow|] eqn:Hw.
    2:{ unfold masked_array, masked_equal_zero, map2d in Hrow.
        rewrite lookup_zip_with, Hs in Hrow. simpl in Hrow.
        rewrite !list_lookup_fmap, Hw in Hrow. done. }
    rewrite (msum_row _ _ _ _ _ Hs Hw) in Hrow. injection Hrow as <-.
    rewrite length_zip_with, length_fmap.
    rewrite Forall_lookup in Hsrows, Hwrows.
    rewrite (Hsrows _ _ Hs), (Hwrows _ _ Hw). lia.
Qed.

(** One element of the quotient [msum[..., i] / mweight[..., i]]. *)
Lemma ma_true_divide_cell (s w : F) :
  ma_true_divide {| m_data := s; m_mask := feqb w fzero |}
                 {| m_data := w; m_mask := feqb w fzero |}
  = if feqb w fzero || negb (fisfinite (fdiv32 s w)) || safe_divide_domain s w
    then {| m_data := s; m_mask := true |}
    else {| m_data := fdiv32 s w; m_mask := false |}.
Proof.
  unfold ma_true_divide, ma_domained_binary. simpl.
  destruct (feqb w fzero), (fisfinite (fdiv32 s w)), (safe_divide_domain s w);
    reflexivity.
Qed.

(** Where an operand is masked, the operation does not enter the
    result. *)
Lemma ma_domained_binary_masked (f f' : F → F → F) (domain : F → F → bool)
    (a b : mcell F) :
  m_mask a = true ∨ m_mask b = true →
  ma_domained_binary f domain a b = {| m_data := m_data a; m_mask := true |}
  ∧ ma_domained_binary f domain a b = ma_domained_binary f' domain a b.
Proof.
  intros Hmask.
  assert (Hm : ∀ g : F → F → F,
    ma_domained_binary g domain a b = {| m_data := m_data a; m_mask := true |}).
  { intros g. unfold ma_domained_binary.
    destruct Hmask as [-> | ->]; by rewrite ?orb_true_r. }
  split; [apply Hm|]. by rewrite !Hm.
Qed.

(** [dict] keeps, for each key, the value of its last pair. *)
Lemma dict_of_pairs_snoc (pairs : list (string * list (mcell F)))
    (f : string) (g : list (mcell F)) :
  dict_of_pairs (pairs ++ [(f, g)]) = <[f := FieldGrid g]> (dict_of_pairs pairs).
Proof. unfold dict_of_pairs. by rewrite foldl_snoc. Qed.

Lemma dict_of_pairs_last (pairs : list (string * list (mcell F))) (i : nat)
    (f : string) (g : list (mcell F)) :
  pairs !! i = Some (f, g) →
  (∀ j g', (i < j)%nat → pairs !! j ≠ Some (f, g')) →
  dict_of_pairs pairs !! f = Some (FieldGrid g).
Proof.
  induction pairs as [|[f' g'] pairs IH] using rev_ind; intros Hi Hlast; [done|].
  rewrite dict_of_pairs_snoc.
  destruct (decide (i = length pairs)) as [->|Hne].
  - rewrite list_lookup_middle in Hi by done. injection Hi as -> ->.
    apply lookup_insert_eq.
  - assert (Hlt : (i < length pairs)%nat).
    { apply lookup_lt_Some in Hi. rewrite length_app in Hi. simpl in Hi. lia. }
    rewrite lookup_app_l in Hi by done.
    assert (Hff : f' ≠ f).
    { intros ->. apply (Hlast (length pairs) g' Hlt).
      by rewrite list_lookup_middle. }
    rewrite lookup_insert_ne by done.
    apply IH; [done|]. intros j g'' Hj Hpj.
    apply (Hlast j g'' Hj). rewrite lookup_app_l; [done|].
    by apply lookup_lt_Some in Hpj.
Qed.

Lemma mapR_lookup_inv {A B} (f : A → result B) (l : list A) (l' : list B)
    (i : nat) (y : B) :
  mapR f l = Ok l' → l' !! i = Some y → ∃ x, l !! i = Some x ∧ f x = Ok y.
Proof.
  intros Hmap Hy.
  destruct (l !! i) as [x|] eqn:Hx.
  - destruct (mapR_lookup _ _ _ _ _ Hmap Hx) as (y' & Hfx & Hy').
    exists x. split; [done|]. congruence.
  - apply lookup_ge_None in Hx. apply lookup_lt_Some in Hy.
    apply mapR_length in Hmap. lia.
Qed.

(** The quotient for field index [i] (line 185), cell by cell. *)
Lemma quotient_grid (ncells nfields i : nat) (grid_sum grid_wsum : list (list F)) :
  has_shape ncells nfields grid_sum → has_shape ncells nfields grid_wsum →
  (i < nfields)%nat →
  ∃ g : list (mcell F),
    (s ← slice_last i
           (masked_array grid_sum (map2d m_mask (masked_equal_zero grid_wsum)));
     w ← slice_last i (masked_equal_zero grid_wsum);
     mret (zip_with ma_true_divide s w)) = Ok g
    ∧ length g = ncells
    ∧ ∀ c srow wrow x y,
        grid_sum !! c = Some srow → srow !! i = Some x →
        grid_wsum !! c = Some wrow → wrow !! i = Some y →
        g !! c = Some (ma_true_divide
                         {| m_data := x; m_mask := feqb y fzero |}
                         {| m_data := y; m_mask := feqb y fzero |}).
Proof.
  intros Hs Hw Hi.
  destruct (msum_shape _ _ _ _ Hs Hw) as [Hmslen Hmsrows].
  destruct (mweight_shape _ _ _ Hw) as [Hmwlen Hmwrows].
  destruct (slice_last_ok i nfields _ Hmsrows Hi) as [s Hslice_s].
  destruct (slice_last_ok i nfields _ Hmwrows Hi) as [wl Hslice_w].
  exists (zip_with ma_true_divide s wl).
  rewrite Hslice_s, Hslice_w. split; [done|]. split.
  - rewrite length_zip_with.
    apply mapR_length in Hslice_s. apply mapR_length in Hslice_w. lia.
  - intros c srow wrow x y Hsrow Hx Hwrow Hy.
    rewrite lookup_zip_with.
    rewrite (slice_last_lookup _ _ _ c _ {| m_data := x; m_mask := feqb y fzero |}
               Hslice_s (msum_row _ _ _ _ _ Hsrow Hwrow)).
    2:{ by rewrite lookup_zip_with, Hx, list_lookup_fmap, Hy. }
    simpl.
    rewrite (slice_last_lookup _ _ _ c _ {| m_data := y; m_mask := feqb y fzero |}
               Hslice_w (mweight_row _ _ _ Hwrow)).
    2:{ by rewrite list_lookup_fmap, Hy. }
    done.
Qed.

(** Case analysis on the outcome of every slice in sight. *)
Ltac destruct_slices :=
  repeat match goal with
         | H : context [slice_last ?i ?a] |- _ =>
             destruct (slice_last i a); simpl in *
         | |- context [slice_last ?i ?a] =>
             destruct (slice_last i a); simpl in *
         end;
  try done.

(** The pairs of lines 184-185: one per field, in order, none raising. *)
Lemma field_grids_ok (ncells : nat) (fields_ : list string)
    (grid_sum grid_wsum : list (list F)) :
  has_shape ncells (length fields_) grid_sum →
  has_shape ncells (length fields_) grid_wsum →
  ∃ pairs,
    field_grids fields_ grid_sum grid_wsum = Ok pairs
    ∧ ∀ i f, fields_ !! i = Some f →
        ∃ g, pairs !! i = Some (f, g)
             ∧ (s ← slice_last i
                  (masked_array grid_sum
                     (map2d m_mask (masked_equal_zero grid_wsum)));
                w ← slice_last i (masked_equal_zero grid_wsum);
                mret (zip_with ma_true_divide s w)) = Ok g.
Proof.
  intros Hs Hw. unfold field_grids.
  destruct (mapR_ok_exists
    (λ '(i, f),
       s ← slice_last i
             (masked_array grid_sum (map2d m_mask (masked_equal_zero grid_wsum)));
       w ← slice_last i (masked_equal_zero grid_wsum);
       mret (f, zip_with ma_true_divide s w))
    (imap pair fields_)) as [pairs Hpairs].
  { intros [j f'] Hin. apply elem_of_lookup_imap in Hin as (j' & f'' & Heq & Hj).
    injection Heq as -> ->.
    destruct (quotient_grid ncells (length fields_) j' grid_sum grid_wsum Hs Hw)
      as (g & Hg & _); [by apply lookup_lt_Some in Hj|].
    destruct_slices. by eexists. }
  exists pairs. split; [done|]. intros i f Hf.
  assert (Hi : imap pair fields_ !! i = Some (i, f)).
  { by rewrite list_lookup_imap, Hf. }
  destruct (mapR_lookup _ _ _ _ _ Hpairs Hi) as ([f' g] & Hfg & Hpi).
  destruct_slices. injection Hfg as <- <-. by eexists.
Qed.

Lemma field_grids_keys (fields_ : list string)
    (grid_sum grid_wsum : list (list F)) (pairs : list (string * list (mcell F)))
    (j : nat) (f : string) (g : list (mcell F)) :
  field_grids fields_ grid_sum grid_wsum = Ok pairs →
  pairs !! j = Some (f, g) → fields_ !! j = Some f.
Proof.
  unfold field_grids. intros Hpairs Hj.
  destruct (mapR_lookup_inv _ _ _ _ _ Hpairs Hj) as ([j' f'] & Hin & Hfg).
  rewrite list_lookup_imap in Hin.
  destruct (fields_ !! j) as [f''|]; [|done]. simpl in Hin.
  injection Hin as <- <-.
  destruct_slices. by injection Hfg as -> _.
Qed.

(** The arrays of lines 138-139 have the shape the finalizer expects. *)
Lemma np_zeros_shape (nz ny nx : Z) (nfields : nat) (a : list (list F)) :
  np_zeros (nz, ny, nx) nfields = Ok a →
  has_shape (Z.to_nat (nz * ny * nx)) nfields a.
Proof.
  unfold np_zeros. destruct (_ || _); [done|]. intros [= <-]. split.
  - by rewrite length_replicate.
  - apply Forall_replicate. by rewrite length_replicate.
Qed.

(** C1, as the code has it: for [grid_sum] and [grid_wsum] of the shape
    (cells, number of fields), the finalizer raises nothing and computes
    one masked grid per field, in the order of the field list.  At cell
    [c] the grid of field [i] holds the float32 quotient
    [grid_sum[c, i] / grid_wsum[c, i]], unmasked, when [grid_wsum[c, i]] is
    positive (indeed whenever it is not zero), the quotient is finite and
    the pair is outside the domain of numpy's safe division.  The cell is
    masked, and stores [grid_sum[c, i]], when [grid_wsum[c, i]] is zero,
    and also when the quotient is not finite or the pair is in that
    domain.  At a zero-weight cell the division does not enter the
    result: any other operation in its place gives the same cell.  The
    dictionary returned holds the grid under the field's name, provided no
    later entry of the field list has the same name and the name is not
    the key 'ROI' written on line 189. *)
Theorem finalizer_weighted_mean `{!FloatLaws F} (ncells : nat)
    (fields_ : list string) (grid_sum grid_wsum : list (list F)) :
  has_shape ncells (length fields_) grid_sum →
  has_shape ncells (length fields_) grid_wsum →
  ∃ pairs : list (string * list (mcell F)),
    field_grids fields_ grid_sum grid_wsum = Ok pairs
    ∧ ∀ (i : nat) (f : string), fields_ !! i = Some f →
        ∃ g : list (mcell F),
          pairs !! i = Some (f, g)
          ∧ length g = ncells
          ∧ (∀ (c : nat) (srow wrow : list F) (s w : F),
               grid_sum !! c = Some srow → srow !! i = Some s →
               grid_wsum !! c = Some wrow → wrow !! i = Some w →
               (fltb fzero w = true → fisfinite (fdiv32 s w) = true →
                safe_divide_domain s w = false →
                  g !! c = Some {| m_data := fdiv32 s w; m_mask := false |})
               ∧ (feqb w fzero = false → fisfinite (fdiv32 s w) = true →
                  safe_divide_domain s w = false →
                    g !! c = Some {| m_data := fdiv32 s w; m_mask := false |})
               ∧ (feqb w fzero = true →
                    g !! c = Some {| m_data := s; m_mask := true |}
                    ∧ ∀ (f' : F → F → F) (domain : F → F → bool),
                        g !! c
                        = Some (ma_domained_binary f' domain
                                  {| m_data := s; m_mask := true |}
                                  {| m_data := w; m_mask := true |}))
               ∧ (fisfinite (fdiv32 s w) = false →
                    g !! c = Some {| m_data := s; m_mask := true |})
               ∧ (safe_divide_domain s w = true →
                    g !! c = Some {| m_data := s; m_mask := true |}))
          ∧ (∀ (gatemapper : GateToGridMapper F) (map_roi : bool)
               (roi_func : RoIFunction F),
               (∀ j, (i < j)%nat → fields_ !! j ≠ Some f) →
               map_roi = false ∨ f ≠ "ROI" →
               ∃ grids : gmap string (grid_value F),
                 finalize gatemapper fields_ grid_sum grid_wsum map_roi roi_func
                 = Ok grids
                 ∧ grids !! f = Some (FieldGrid g)).
Proof.
  intros Hs Hw.
  destruct (field_grids_ok ncells fields_ grid_sum grid_wsum Hs Hw)
    as (pairs & Hpairs & Hentries).
  exists pairs. split; [done|]. intros i f Hf.
  destruct (Hentries i f Hf) as (g & Hpi & Hg).
  destruct (quotient_grid ncells (length fields_) i grid_sum grid_wsum Hs Hw)
    as (g' & Hg' & Hlen & Hcells); [by apply lookup_lt_Some in Hf|].
  rewrite Hg in Hg'. injection Hg' as <-.
  exists g. split; [done|]. split; [done|]. split.
  - intros c srow wrow s w Hsrow Hsi Hwrow Hwi.
    specialize (Hcells c srow wrow s w Hsrow Hsi Hwrow Hwi).
    rewrite ma_true_divide_cell in Hcells.
    split; [|split; [|split; [|split]]].
    + intros Hpos Hfin Hdom.
      by rewrite Hcells, (fltb_zero_neq w Hpos), Hfin, Hdom.
    + intros Hnz Hfin Hdom. by rewrite Hcells, Hnz, Hfin, Hdom.
    + intros Hz. rewrite Hz in Hcells. simpl in Hcells. split; [done|].
      intros f' domain. rewrite Hcells. f_equal. symmetry.
      apply (ma_domained_binary_masked f' f' domain). by left.
    + intros Hfin. rewrite Hfin in Hcells. simpl in Hcells.
      by rewrite orb_true_r in Hcells.
    + intros Hdom. rewrite Hdom in Hcells. by rewrite orb_true_r in Hcells.
  - intros gatemapper map_roi roi_func Hlast Hroi.
    assert (Hdict : dict_of_pairs pairs !! f = Some (FieldGrid g)).
    { apply (dict_of_pairs_last pairs i); [done|].
      intros j g'' Hj Hpj. apply (Hlast j Hj).
      by apply (field_grids_keys _ _ _ _ _ _ _ Hpairs Hpj). }
    unfold finalize. rewrite Hpairs. simpl.
    destruct map_roi.
    + eexists. split; [reflexivity|].
      destruct Hroi as [|Hne]; [done|].
      by rewrite lookup_insert_ne.
    + by eexists.
Qed.

End Proofs.

(** * Closed instances on the sample inputs *)

Section SampleInstances.
#[local] Existing Instance sample_collaborators.
#[local] Existing Instance ascii_PyStr.

Lemma finalizer_weighted_mean_witness :
  ∃ (pairs : list (string * list (mcell Q))) (g0 g1 : list (mcell Q)),
    field_grids ["reflectivity"; "velocity"]
      [[inject_Z 6; inject_Z 2]; [inject_Z 3; inject_Z 4]]
      [[inject_Z 2; inject_Z 0]; [inject_Z 3; inject_Z 0]] = Ok pairs
    ∧ pairs !! 0%nat = Some ("reflectivity", g0)
    ∧ pairs !! 1%nat = Some ("velocity", g1)
    ∧ g0 !! 0%nat
      = Some {| m_data := fdiv32 (inject_Z 6) (inject_Z 2); m_mask := false |}
    ∧ g1 !! 0%nat = Some {| m_data := inject_Z 2; m_mask := true |}.
Proof.
  destruct (finalizer_weighted_mean (F:=Q) 2 ["reflectivity"; "velocity"]
              [[inject_Z 6; inject_Z 2]; [inject_Z 3; inject_Z 4]]
              [[inject_Z 2; inject_Z 0]; [inject_Z 3; inject_Z 0]])
    as (pairs & Hpairs & Hentries).
  - split; [reflexivity|]. repeat constructor.
  - split; [reflexivity|]. repeat constructor.
  - destruct (Hentries 0%nat "reflectivity" eq_refl) as (g0 & Hg0 & _ & Hcells0 & _).
    destruct (Hentries 1%nat "velocity" eq_refl) as (g1 & Hg1 & _ & Hcells1 & _).
    exists pairs, g0, g1.
    split; [exact Hpairs|]. split; [exact Hg0|]. split; [exact Hg1|]. split.
    + apply (Hcells0 0%nat [inject_Z 6; inject_Z 2] [inject_Z 2; inject_Z 0]
               (inject_Z 6) (inject_Z 2)); reflexivity.
    + apply (Hcells1 0%nat [inject_Z 6; inject_Z 2] [inject_Z 2; inject_Z 0]
               (inject_Z 2) (inject_Z 0)); reflexivity.
Defined.

(** C1, as the claim states it, fails in two ways.  In the arithmetic
    with a non-finite value, the cell with sum 2^127 and weight 1/4 has a
    positive weight, but its quotient, 2^129, is beyond the range of
    float32: the cell is masked and stores the sum.  And with [map_roi]
    set, the entry of a field named 'ROI' is the radius-of-influence grid,
    not the quotient 6 / 2 computed for the field. *)
Lemma finalizer_masks_positive_weight :
  fltb fzero (Some (Qmake 1 4)) = true
  ∧ fdiv (Some (inject_Z (2 ^ 127))) (Some (Qmake 1 4))
    = Some (Qdiv (inject_Z (2 ^ 127)) (Qmake 1 4))
  ∧ field_grids ["reflectivity"] [[Some (inject_Z (2 ^ 127))]]
      [[Some (Qmake 1 4)]]
    = Ok [("reflectivity",
           [{| m_data := Some (inject_Z (2 ^ 127)); m_mask := true |}])]
  ∧ field_grids ["ROI"] [[inject_Z 6]] [[inject_Z 2]]
    = Ok [("ROI", [{| m_data := fdiv32 (inject_Z 6) (inject_Z 2);
                      m_mask := false |}])]
  ∧ ∃ grids : gmap string (grid_value Q),
      finalize
        {| gm_grid_shape := (1, 1, 1);
           gm_grid_starts := (inject_Z 0, inject_Z 0, inject_Z 0);
           gm_grid_steps := (inject_Z 0, inject_Z 0, inject_Z 0) |}
        ["ROI"] [[inject_Z 6]] [[inject_Z 2]] true (ConstantRoI (inject_Z 500))
      = Ok grids
      ∧ grids !! "ROI" = Some (RoiGrid [inject_Z 1])
      ∧ grids !! "ROI"
        ≠ Some (FieldGrid [{| m_data := fdiv32 (inject_Z 6) (inject_Z 2);
                              m_mask := false |}]).
Proof.
  split; [reflexivity|]. split; [reflexivity|].
  split; [vm_compute; reflexivity|]. split; [reflexivity|].
  eexists. split; [reflexivity|]. split; [reflexivity|].
  rewrite lookup_insert_eq. discriminate.
Qed.

Lemma max_space_buffer_append_raises_witness :
  max_az_spacing_local (RoiName "max_space") [radar_a]
  = Raise (AttributeError "'numpy.ndarray' object has no attribute 'append'")
  ∧ map_gates_to_grid (with_roi_func sample_call (RoiName "max_space")) []
    = (Raise (AttributeError "'numpy.ndarray' object has no attribute 'append'"),
       [barnes_deprecation]).
Proof.
  eapply (max_space_buffer_append_raises (F:=Q)
            (with_roi_func sample_call (RoiName "max_space")) radar_a []);
    reflexivity.
Defined.


Lemma max_az_spacing_unbound_witness :
  parse_parameters _parse_roi_func_header = None
  ∧ map_gates_to_grid sample_call []
    = (Raise (UnboundLocalError "max_az_spacing"), [barnes_deprecation]).
Proof.
  destruct (max_az_spacing_unbound (F:=Q) sample_call "dist_beam"
              (match prelude sample_call [] with
               | (Ok L, _) => L
               | (Raise _, _) =>
                   {| l_radars := []; l_skip_transform := false;
                      l_grid_origin_alt := inject_Z 0; l_gatefilters := [];
                      l_cy_weighting_function := 0; l_projparams := ∅;
                      l_fields := []; l_grid_starts := (0, 0, 0)%Q;
                      l_grid_steps := (0, 0, 0)%Q; l_offsets := [] |}
               end)
              [] [barnes_deprecation])
    as (Hheader & _ & _ & Hcall).
  - reflexivity.
  - right. right. reflexivity.
  - vm_compute. reflexivity.
  - split; [exact Hheader|exact Hcall].
Defined.

Lemma weighting_function_resolved_once_witness :
  _detemine_cy_weighting_func "Barnes" [] = (Ok 0, [barnes_deprecation])
  ∧ _detemine_cy_weighting_func "cressman" [] = (Ok 1, [])
  ∧ _detemine_cy_weighting_func "NeArEsT" [] = (Ok 2, [])
  ∧ _detemine_cy_weighting_func "barnes2" [] = (Ok 3, [])
  ∧ _detemine_cy_weighting_func "BARNES" [] = _detemine_cy_weighting_func "Barnes" []
  ∧ ∃ L : prelude_locals Q,
      prelude sample_call [] = (Ok L, [barnes_deprecation])
      ∧ _detemine_cy_weighting_func "Barnes" []
        = (Ok (l_cy_weighting_function L), [barnes_deprecation]).
Proof.
  split; [|split; [|split; [|split; [|split]]]].
  - apply (weighting_function_resolved_once (F:=Q) "Barnes" []). reflexivity.
  - apply (weighting_function_resolved_once (F:=Q) "cressman" []). reflexivity.
  - apply (weighting_function_resolved_once (F:=Q) "NeArEsT" []). reflexivity.
  - apply (weighting_function_resolved_once (F:=Q) "barnes2" []). reflexivity.
  - apply (weighting_function_resolved_once (F:=Q) "Barnes" []). reflexivity.
  - destruct (prelude sample_call []) as [[L|e] w'] eqn:Hp;
      [|vm_compute in Hp; discriminate Hp].
    assert (Hw : w' = [barnes_deprecation]).
    { vm_compute in Hp. by injection Hp as _ <-. }
    subst w'. exists L. split; [reflexivity|].
    destruct (weighting_function_resolved_once (F:=Q) "Barnes" [])
      as (_ & _ & _ & _ & _ & Hprelude & _).
    by apply (Hprelude sample_call L [barnes_deprecation]).
Defined.

Lemma find_grid_params_steps_witness :
  ∃ z_step y_step x_step : Q,
    _find_grid_params (1, 2, 3)
      ((inject_Z 0, inject_Z 0), (inject_Z (-1000), inject_Z 1000),
       (inject_Z (-1000), inject_Z 1000))
    = Ok ((inject_Z 0, inject_Z (-1000), inject_Z (-1000)),
          (z_step, y_step, x_step))
    ∧ z_step = fzero
    ∧ x_step = fdiv (fsub (inject_Z 1000) (inject_Z (-1000)))
                    (fsub (of_int 3) fone).
Proof.
  destruct (find_grid_params_steps (F:=Q) 1 2 3
              (inject_Z 0) (inject_Z 0) (inject_Z (-1000)) (inject_Z 1000)
              (inject_Z (-1000)) (inject_Z 1000))
    as (z & y & x & Hok & Hz & _ & _ & _ & _ & Hx);
    [lia|lia|lia|reflexivity|reflexivity|reflexivity|].
  exists z, y, x. split; [exact Hok|]. split; [by apply Hz|]. apply Hx. lia.
Defined.

(** C8, as the claim states it, fails: the size 10^400 is an integer of
    at least 1, and where integers beyond the range of binary64 do not
    convert, [n - 1.] on line 287 raises [OverflowError]. *)
Lemma find_grid_params_overflow :
  1 ≤ 10 ^ 400
  ∧ _find_grid_params (F:=option Q) (10 ^ 400, 1, 1)
      ((Some (inject_Z 0), Some (inject_Z 1000)),
       (Some (inject_Z 0), Some (inject_Z 0)),
       (Some (inject_Z 0), Some (inject_Z 0)))
    = Raise OverflowError.
Proof. split; [by vm_compute|]. vm_compute. reflexivity. Qed.

Lemma missing_field_raises_KeyError_witness :
  copy_field_data radar_b ["reflectivity"; "velocity"]
  = Raise (KeyError "velocity").
Proof.
  destruct (missing_field_raises_KeyError (F:=Q) radar_b
              ["reflectivity"; "velocity"] "velocity")
    as (i & g & Hi & Hnone & _ & _ & Hcopy & _).
  - right. left.
  - reflexivity.
  - rewrite Hcopy. destruct i as [|[|i]]; simpl in Hi.
    + injection Hi as <-. vm_compute in Hnone. discriminate Hnone.
    + by injection Hi as <-.
    + discriminate Hi.
Defined.

(** C5, as the claim states it, fails: [radar_b] lacks the requested
    field [velocity]; the call on [radar_a] and [radar_b] is fatal (it
    ends on line 134, with no warning issued), and gathering the data of
    [radar_b] for the requested fields does not leave the field out, it
    raises [KeyError]. *)
Lemma missing_field_is_fatal :
  map_gates_to_grid sample_missing_field_call []
  = (Raise (UnboundLocalError "max_az_spacing"), [])
  ∧ (¬ ∃ grids w, map_gates_to_grid sample_missing_field_call [] = (Ok grids, w))
  ∧ copy_field_data radar_a ["reflectivity"; "velocity"]
    = Ok ([map2d m_data (sample_plane 10 20 30 40 false);
           map2d m_data (sample_plane 1 2 3 4 true)],
          [map2d m_mask (sample_plane 10 20 30 40 false);
           map2d m_mask (sample_plane 1 2 3 4 true)])
  ∧ copy_field_data radar_b ["reflectivity"; "velocity"]
    = Raise (KeyError "velocity").
Proof.
  assert (Hcall : map_gates_to_grid sample_missing_field_call []
                  = (Raise (UnboundLocalError "max_az_spacing"), [])).
  { vm_compute. reflexivity. }
  split; [exact Hcall|]. split.
  - intros (grids & w & Hok). rewrite Hcall in Hok. discriminate.
  - split; vm_compute; reflexivity.
Qed.

(** C4, on the code: a radar with a single ray has no azimuthal spacing
    at all, and the call with [roi_func='max_space'] ends with the
    [AttributeError] of the buffer's missing [append], as it does for any
    radar; it is not the [ValueError] that configuration faults raise. *)
Theorem max_space_single_ray_attribute_error :
  (x ← last_column (ngates radar_one_ray) (gate_x radar_one_ray);
   mret (np_diff x)) = Ok []
  ∧ map_gates_to_grid
      (with_roi_func
         (default_args (OneRadar radar_one_ray) sample_shape sample_limits)
         (RoiName "max_space")) []
    = (Raise (AttributeError "'numpy.ndarray' object has no attribute 'append'"),
       [barnes_deprecation])
  ∧ ∀ (msg : string) (w : list warning),
      map_gates_to_grid
        (with_roi_func
           (default_args (OneRadar radar_one_ray) sample_shape sample_limits)
           (RoiName "max_space")) []
      ≠ (Raise (ValueError msg), w).
Proof.
  assert (H : map_gates_to_grid
      (with_roi_func
         (default_args (OneRadar radar_one_ray) sample_shape sample_limits)
         (RoiName "max_space")) []
    = (Raise (AttributeError "'numpy.ndarray' object has no attribute 'append'"),
       [barnes_deprecation])).
  { vm_compute. reflexivity. }
  split; [reflexivity|]. split; [exact H|].
  intros msg w. rewrite H. discriminate.
Qed.

End SampleInstances.

(** * Further properties of the module *)

Section Further.
Context {F : Type} `{!Float F} `{!PyStr} `{!Collaborators F}.

(** ** The steps of the prelude, read back from its result *)

Lemma prelude_inv (a : call_args F) (L : prelude_locals F) (w w' : list warning) :
  prelude a w = (Ok L, w') →
  ∃ alt gfs cy pp fs starts steps offs,
    find_grid_origin_alt (a_grid_origin_alt a) (radars_tuple (a_radars a)) = Ok alt
    ∧ _parse_gatefilters (a_gatefilters a) (radars_tuple (a_radars a)) = Ok gfs
    ∧ _detemine_cy_weighting_func (a_weighting_function a) w = (Ok cy, w')
    ∧ _find_projparams (a_grid_origin a) (radars_tuple (a_radars a))
        (a_grid_projection a) = Ok pp
    ∧ _determine_fields (a_fields a) (radars_tuple (a_radars a)) = Ok fs
    ∧ _find_grid_params (a_grid_shape a) (a_grid_limits a) = Ok (starts, steps)
    ∧ _find_offsets (radars_tuple (a_radars a)) pp alt = Ok offs
    ∧ l_radars L = radars_tuple (a_radars a)
    ∧ l_gatefilters L = gfs
    ∧ l_cy_weighting_function L = cy
    ∧ l_fields L = fs
    ∧ l_offsets L = offs.
Proof.
  unfold prelude. rewrite M_bind_lift.
  destruct (find_grid_origin_alt _ _) as [alt|e]; [|done].
  rewrite M_bind_lift.
  destruct (_parse_gatefilters _ _) as [gfs|e]; [|done].
  rewrite M_bind_unfold.
  destruct (_detemine_cy_weighting_func _ w) as [[cy|e] w1]; [|done].
  rewrite M_bind_lift. destruct (_find_projparams _ _ _) as [pp|e]; [|done].
  rewrite M_bind_lift. destruct (_determine_fields _ _) as [fs|e]; [|done].
  rewrite M_bind_lift.
  destruct (_find_grid_params _ _) as [[starts steps]|e]; [|done].
  rewrite M_bind_lift. destruct (_find_offsets _ _ _) as [offs|e] eqn:Hoffs; [|done].
  intros [= <- <-]. by eexists alt, gfs, cy, pp, fs, starts, steps, offs.
Qed.

(** ** [_parse_gatefilters] *)

Lemma parse_gatefilters_lengths (gatefilters : gatefilters_arg)
    (radars : list (Radar F)) (l : list gatefilter_item) :
  _parse_gatefilters gatefilters radars = Ok l →
  length l = length radars ∧ (zip radars l).*1 = radars.
Proof.
  unfold _parse_gatefilters. case_decide as Hlen; [done|].
  intros [= <-].
  split; [done|]. apply fst_zip. lia.
Qed.

(** X1: [False] and [None] stand for one entry per radar and never
    raise; and whatever the argument, a result of [_parse_gatefilters] has
    exactly one entry per radar, so that [zip(radars, gatefilters)] pairs
    every radar. *)
Theorem parse_gatefilters_one_per_radar (radars : list (Radar F)) :
  _parse_gatefilters GatefiltersFalse radars
  = Ok (replicate (length radars) ItemFalse)
  ∧ _parse_gatefilters GatefiltersNone radars
    = Ok (replicate (length radars) ItemNone)
  ∧ ∀ (gatefilters : gatefilters_arg) (l : list gatefilter_item),
      _parse_gatefilters gatefilters radars = Ok l →
      length l = length radars ∧ (zip radars l).*1 = radars.
Proof.
  split; [|split].
  - unfold _parse_gatefilters. rewrite decide_False; [done|].
    rewrite length_replicate. auto.
  - unfold _parse_gatefilters. rewrite decide_False; [done|].
    rewrite length_replicate. auto.
  - intros gatefilters l. apply parse_gatefilters_lengths.
Qed.

(** X2: when the prelude of a call completes, it holds one gate filter
    per radar of the tuple made from the first argument: the loop of
    lines 144-179 leaves no radar out. *)
Theorem prelude_pairs_every_radar (a : call_args F) (L : prelude_locals F)
    (w w' : list warning) :
  prelude a w = (Ok L, w') →
  l_radars L = radars_tuple (a_radars a)
  ∧ length (l_gatefilters L) = length (l_radars L)
  ∧ (zip (l_radars L) (l_gatefilters L)).*1 = radars_tuple (a_radars a).
Proof.
  intros Hp.
  destruct (prelude_inv a L w w' Hp)
    as (alt & gfs & cy & pp & fs & starts & steps & offs & _ & Hgf & _ & _ & _
        & _ & _ & Hradars & Hgfs & _).
  rewrite Hradars, Hgfs.
  destruct (parse_gatefilters_lengths _ _ _ Hgf) as [Hlen Hzip].
  done.
Qed.

(** ** [_find_projparams] *)

Lemma py_float_cases (a : list F) :
  (∃ x, py_float a = Ok x) ∨ py_float a = Raise TypeError.
Proof. destruct a as [|x [|y a]]; simpl; eauto. Qed.

(** X3: [_find_projparams] raises in one situation only: no grid origin
    was given and the tuple of radars is empty, and then the exception is
    [IndexError]; a radar whose position is an array is handled by the
    mean and raises nothing. *)
Theorem find_projparams_raises_iff (grid_origin : option (F * F))
    (radars : list (Radar F)) (grid_projection : option (gmap string (pyval F)))
    (e : exn) :
  _find_projparams grid_origin radars grid_projection = Raise e
  ↔ grid_origin = None ∧ radars = [] ∧ e = IndexError.
Proof.
  unfold _find_projparams.
  destruct grid_origin as [[lat lon]|]; simpl.
  - destruct (truthy _); split; (done || by intros [? _]).
  - destruct radars as [|radar0 rest]; simpl.
    + split; [by intros [= <-]|by intros (_ & _ & ->)].
    + assert (Hok : ∃ o,
        try_except_TypeError
          (lat ← py_float (latitude radar0);
           lon ← py_float (longitude radar0); mret (lat, lon))
          (Ok (np_mean (latitude radar0), np_mean (longitude radar0)))
        = Ok o).
      { destruct (py_float_cases (latitude radar0)) as [[x ->]| ->];
          simpl; [|by eexists].
        destruct (py_float_cases (longitude radar0)) as [[y ->]| ->];
          simpl; by eexists. }
      destruct Hok as [[lat lon] ->]. simpl.
      destruct (truthy _); split; (done || by intros (_ & ? & _)).
Qed.

(** X4: with a grid origin and a projection dictionary of the caller,
    the result never holds the key [_include_lon_0_lat_0], every key
    other than that one, [lat_0] and [lon_0] is passed through, and
    [lat_0] and [lon_0] are set to the origin exactly when the flag was
    present and true; otherwise the caller's own values stay.  Without a
    projection the result is the azimuthal-equidistant projection centred
    on the origin. *)
Theorem find_projparams_keys (lat lon : F) (radars : list (Radar F))
    (p : gmap string (pyval F)) :
  (∃ pp : gmap string (pyval F),
     _find_projparams (Some (lat, lon)) radars (Some p) = Ok pp
     ∧ pp !! "_include_lon_0_lat_0" = None
     ∧ (∀ k : string, k ≠ "_include_lon_0_lat_0" → k ≠ "lat_0" → k ≠ "lon_0" →
          pp !! k = p !! k)
     ∧ (truthy (default (PBool false) (p !! "_include_lon_0_lat_0")) = true →
          pp !! "lat_0" = Some (PFloat lat) ∧ pp !! "lon_0" = Some (PFloat lon))
     ∧ (truthy (default (PBool false) (p !! "_include_lon_0_lat_0")) = false →
          pp !! "lat_0" = p !! "lat_0" ∧ pp !! "lon_0" = p !! "lon_0"))
  ∧ (∃ pp : gmap string (pyval F),
       _find_projparams (Some (lat, lon)) radars None = Ok pp
       ∧ pp !! "proj" = Some (PStr "pyart_aeqd")
       ∧ pp !! "lat_0" = Some (PFloat lat)
       ∧ pp !! "lon_0" = Some (PFloat lon)
       ∧ (dom pp : gset string) = {["proj"; "lat_0"; "lon_0"]}).
Proof.
  split.
  - unfold _find_projparams. simpl.
    destruct (truthy (default (PBool false) (p !! "_include_lon_0_lat_0")))
      eqn:Hflag; eexists; (split; [reflexivity|]).
    + split; [by rewrite !lookup_insert_ne, lookup_delete_eq|].
      split; [|split; [|done]].
      * intros k Hk Hlat Hlon.
        by rewrite !lookup_insert_ne, lookup_delete_ne.
      * intros _. split; [apply lookup_insert_eq|].
        rewrite lookup_insert_ne by done. apply lookup_insert_eq.
    + split; [apply lookup_delete_eq|].
      split; [|split; [done|]].
      * intros k Hk _ _. by rewrite lookup_delete_ne.
      * intros _. by rewrite !lookup_delete_ne.
  - unfold _find_projparams. simpl.
    rewrite lookup_insert_ne by done. rewrite lookup_insert_eq. simpl.
    eexists. split; [reflexivity|].
    split; [by rewrite !lookup_insert_ne, lookup_delete_ne, lookup_insert_eq|].
    split; [apply lookup_insert_eq|].
    split; [rewrite lookup_insert_ne by done; apply lookup_insert_eq|].
    rewrite !dom_insert_L, dom_delete_L, !dom_insert_L, dom_empty_L.
    set_solver.
Qed.

(** ** [_find_offsets] *)

Lemma mapR_raise_inv {A B} (f : A → result B) (l : list A) (e : exn) :
  mapR f l = Raise e → ∃ x, x ∈ l ∧ f x = Raise e.
Proof.
  induction l as [|a l IH]; intros Hmap; [done|]. simpl in Hmap.
  destruct (f a) as [y|e'] eqn:Hfa; simpl in Hmap.
  - destruct (mapR f l) as [ys|e'] eqn:Hrest; [done|]. simpl in Hmap.
    injection Hmap as ->. destruct (IH eq_refl) as (x & Hx & Hfx).
    exists x. split; [by right|done].
  - injection Hmap as ->. exists a. split; [by left|done].
Qed.

(** The offset of one radar, once its position is projected: the
    [TypeError] of an array position is caught, nothing else is raised. *)
Lemma offset_of_projected (radar : Radar F) (grid_origin_alt : F)
    (x_disp y_disp : list F) :
  ∃ o : F * F * F,
    try_except_TypeError
      (z ← py_float (altitude radar);
       let z_disp := fsub z grid_origin_alt in
       y ← py_float y_disp; x ← py_float x_disp; mret (z_disp, y, x))
      (let z_disp := fsub (np_mean (altitude radar)) grid_origin_alt in
       Ok (z_disp, np_mean y_disp, np_mean x_disp))
    = Ok o.
Proof.
  destruct (py_float_cases (altitude radar)) as [[z ->]| ->];
    simpl; [|by eexists].
  destruct (py_float_cases y_disp) as [[y ->]| ->]; simpl; [|by eexists].
  destruct (py_float_cases x_disp) as [[x ->]| ->]; simpl; by eexists.
Qed.

(** X5: [_find_offsets] raises only what the projection of a radar's
    position raises (line 265 is outside the [try]); when the projection
    succeeds for every radar, it raises nothing, whatever the sizes of the
    position arrays, and returns one offset per radar, in the order of
    the radars; a radar whose altitude and projected position are single
    values gets [(altitude - grid_origin_alt, y, x)]. *)
Theorem find_offsets_one_per_radar (radars : list (Radar F))
    (projparams : gmap string (pyval F)) (grid_origin_alt : F) :
  (∀ e : exn,
     _find_offsets radars projparams grid_origin_alt = Raise e →
     ∃ radar, radar ∈ radars
       ∧ geographic_to_cartesian (longitude radar) (latitude radar) projparams
         = Raise e)
  ∧ ((∀ radar, radar ∈ radars →
        ∃ xy, geographic_to_cartesian (longitude radar) (latitude radar)
                projparams = Ok xy) →
     ∃ offsets : list (F * F * F),
       _find_offsets radars projparams grid_origin_alt = Ok offsets
       ∧ length offsets = length radars
       ∧ ∀ (i : nat) (radar : Radar F) (z y x : F),
           radars !! i = Some radar →
           altitude radar = [z] →
           geographic_to_cartesian (longitude radar) (latitude radar) projparams
           = Ok ([x], [y]) →
           offsets !! i = Some (fsub z grid_origin_alt, y, x)).
Proof.
  unfold _find_offsets. split.
  - intros e Hraise.
    apply mapR_raise_inv in Hraise as (radar & Hradar & Hfx).
    exists radar. split; [done|].
    destruct (geographic_to_cartesian _ _ _) as [[x_disp y_disp]|e'];
      [|by injection Hfx as ->].
    destruct (offset_of_projected radar grid_origin_alt x_disp y_disp)
      as [o Ho].
    change (try_except_TypeError
      (z ← py_float (altitude radar);
       let z_disp := fsub z grid_origin_alt in
       y ← py_float y_disp; x ← py_float x_disp; mret (z_disp, y, x))
      (let z_disp := fsub (np_mean (altitude radar)) grid_origin_alt in
       Ok (z_disp, np_mean y_disp, np_mean x_disp)) = Raise e) in Hfx.
    rewrite Ho in Hfx. done.
  - intros Hproj.
    destruct (mapR_ok_exists
      (λ radar : Radar F,
         '(x_disp, y_disp) ←
           geographic_to_cartesian (longitude radar) (latitude radar) projparams;
         try_except_TypeError
           (z ← py_float (altitude radar);
            let z_disp := fsub z grid_origin_alt in
            y ← py_float y_disp; x ← py_float x_disp; mret (z_disp, y, x))
           (let z_disp := fsub (np_mean (altitude radar)) grid_origin_alt in
            Ok (z_disp, np_mean y_disp, np_mean x_disp)))
      radars) as [offsets Hoffsets].
    { intros radar Hradar. destruct (Hproj radar Hradar) as [[x_disp y_disp] ->].
      simpl. apply offset_of_projected. }
    exists offsets. split; [done|].
    split; [by apply mapR_length in Hoffsets|].
    intros i radar z y x Hi Hz Hxy.
    destruct (mapR_lookup _ _ _ _ _ Hoffsets Hi) as (o & Ho & Hoi).
    rewrite Hxy in Ho. simpl in Ho. rewrite Hz in Ho. simpl in Ho.
    by injection Ho as <-.
Qed.

(** ** [_parse_roi_func] *)

(** X6: [_parse_roi_func] accepts exactly the four names 'constant',
    'dist', 'dist_beam' and 'max_space', spelled in lower case (unlike the
    weighting function, the name is not folded to one case), and returns
    an object of the caller unchanged whatever the other arguments; no
    upper-cased name is accepted. *)
Theorem parse_roi_func_ok_iff (s : string)
    (constant_roi z_factor xy_factor min_radius h_factor nb bsp : F)
    (offsets : list (F * F * F)) (max_az_spacing : F) :
  ((∃ r, _parse_roi_func (RoiName s) constant_roi z_factor xy_factor min_radius
           h_factor nb bsp offsets max_az_spacing = Ok r)
   ↔ s = "constant" ∨ s = "dist" ∨ s = "dist_beam" ∨ s = "max_space")
  ∧ (∀ r : RoIFunction F,
       _parse_roi_func (RoiObject r) constant_roi z_factor xy_factor min_radius
         h_factor nb bsp offsets max_az_spacing = Ok r)
  ∧ _parse_roi_func (RoiName (upper s)) constant_roi z_factor xy_factor
      min_radius h_factor nb bsp offsets max_az_spacing
    = Raise (ValueError ("unknown roi_func: " ++ upper s)).
Proof.
  split; [|split; [done|]].
  - unfold _parse_roi_func. split.
    + intros [r Hr].
      destruct (String.eqb_spec s "constant"); [by left|].
      destruct (String.eqb_spec s "dist"); [by right; left|].
      destruct (String.eqb_spec s "dist_beam"); [by right; right; left|].
      destruct (String.eqb_spec s "max_space"); [by right; right; right|].
      done.
    + intros [->|[->|[->| ->]]]; simpl; by eexists.
  - pose proof (upper_idem s) as Hidem. unfold _parse_roi_func.
    destruct (String.eqb_spec (upper s) "constant") as [Hc|_];
      [by rewrite Hc, upper_on_ascii in Hidem|].
    destruct (String.eqb_spec (upper s) "dist") as [Hc|_];
      [by rewrite Hc, upper_on_ascii in Hidem|].
    destruct (String.eqb_spec (upper s) "dist_beam") as [Hc|_];
      [by rewrite Hc, upper_on_ascii in Hidem|].
    destruct (String.eqb_spec (upper s) "max_space") as [Hc|_];
      [by rewrite Hc, upper_on_ascii in Hidem|].
    done.
Qed.

(** ** [_determine_fields] *)

Lemma determine_fields_default (radar0 : Radar F) (rest : list (Radar F)) :
  ∃ l : list string,
    _determine_fields None (radar0 :: rest) = Ok l
    ∧ NoDup l
    ∧ ∀ f : string,
        f ∈ l ↔ ∀ r, r ∈ radar0 :: rest → f ∈ (dom (fields r) : gset string).
Proof.
  eexists. split; [reflexivity|]. split; [apply NoDup_elements|].
  intros f. rewrite elem_of_elements, elem_of_foldl_intersection. simpl.
  split.
  - intros [H0 Hrest] r [->|Hr]%elem_of_cons; [done|by apply Hrest].
  - intros Hall. split; [apply Hall; by left|].
    intros r Hr. apply Hall. by right.
Qed.

(** X7: the default field list does not depend on the order of the
    radars: for a reordering of the same radars [_determine_fields]
    returns the same names, up to the order of the list. *)
Theorem determine_fields_order_independent (radars radars' : list (Radar F))
    (l : list string) :
  radars ≡ₚ radars' →
  _determine_fields None radars = Ok l →
  ∃ l' : list string, _determine_fields None radars' = Ok l' ∧ l ≡ₚ l'.
Proof.
  intros Hperm Hl.
  destruct radars as [|radar0 rest]; [done|].
  destruct radars' as [|radar0' rest'];
    [by apply Permutation_nil_r in Hperm|].
  destruct (determine_fields_default radar0 rest) as (l0 & Hl0 & Hnd & Hmem).
  destruct (determine_fields_default radar0' rest') as (l' & Hl' & Hnd' & Hmem').
  rewrite Hl0 in Hl. injection Hl as <-.
  exists l'. split; [done|].
  apply NoDup_Permutation; [done..|].
  intros f. rewrite Hmem, Hmem'. split; intros Hall r Hr; apply Hall.
  - by rewrite Hperm.
  - by rewrite <- Hperm.
Qed.

(** X8: every name of the default field list is a field of every radar
    given, and giving further radars can only remove names from it. *)
Theorem determine_fields_shrinks (radar0 : Radar F) (rest extra : list (Radar F)) :
  ∃ l l' : list string,
    _determine_fields None (radar0 :: rest) = Ok l
    ∧ _determine_fields None (radar0 :: rest ++ extra) = Ok l'
    ∧ l' ⊆ l
    ∧ (∀ f r, f ∈ l' → r ∈ radar0 :: rest ++ extra → is_Some (fields r !! f)).
Proof.
  destruct (determine_fields_default radar0 rest) as (l & Hl & _ & Hmem).
  destruct (determine_fields_default radar0 (rest ++ extra))
    as (l' & Hl' & _ & Hmem').
  exists l, l'. split; [done|]. split; [done|]. split.
  - intros f Hf. apply Hmem. intros r Hr. apply (proj1 (Hmem' f) Hf).
    apply elem_of_cons in Hr as [->|Hr]; [by left|].
    right. apply elem_of_app. by left.
  - intros f r Hf Hr. apply elem_of_dom. by apply (proj1 (Hmem' f) Hf).
Qed.

(** ** [_find_grid_params] *)

(** X9: [_find_grid_params] does not check the sizes.  It raises in
    one situation only: an axis whose size is not 1 and is too large to
    convert to a float, and the exception is then [OverflowError].  For
    all other sizes, zero and negative ones included, it returns the
    lower limits as starts and divides by (size - 1) on every axis whose
    size is not 1. *)
Theorem find_grid_params_raises_iff `{!FloatLaws F} (nz ny nx : Z)
    (z_start z_stop y_start y_stop x_start x_stop : F) :
  (∀ e : exn,
     _find_grid_params (nz, ny, nx)
       ((z_start, z_stop), (y_start, y_stop), (x_start, x_stop)) = Raise e
     ↔ e = OverflowError
       ∧ ((nz ≠ 1 ∧ float_overflow nz = true)
          ∨ (ny ≠ 1 ∧ float_overflow ny = true)
          ∨ (nx ≠ 1 ∧ float_overflow nx = true)))
  ∧ ((nz = 1 ∨ float_overflow nz = false) →
     (ny = 1 ∨ float_overflow ny = false) →
     (nx = 1 ∨ float_overflow nx = false) →
     ∃ z_step y_step x_step : F,
       _find_grid_params (nz, ny, nx)
         ((z_start, z_stop), (y_start, y_stop), (x_start, x_stop))
       = Ok ((z_start, y_start, x_start), (z_step, y_step, x_step))
       ∧ (nz ≠ 1 → z_step = fdiv (fsub z_stop z_start) (fsub (of_int nz) fone))
       ∧ (ny ≠ 1 → y_step = fdiv (fsub y_stop y_start) (fsub (of_int ny) fone))
       ∧ (nx ≠ 1 → x_step = fdiv (fsub x_stop x_start) (fsub (of_int nx) fone))).
Proof.
  assert (Hcases : ∀ n : Z,
    (n = 1 ∨ float_overflow n = false) ∨ (n ≠ 1 ∧ float_overflow n = true)).
  { intros n. destruct (decide (n = 1)); [by left; left|].
    destruct (float_overflow n); [by right|by left; right]. }
  split.
  - intros e. unfold _find_grid_params.
    destruct (Hcases nz) as [Hz|[Hz1 Hz2]].
    2:{ rewrite (axis_step_overflow _ _ _ Hz1 Hz2). simpl.
        split; [intros [= <-]; split; [done|by left]|by intros [-> _]]. }
    rewrite (axis_step_ok _ _ _ Hz). simpl.
    destruct (Hcases ny) as [Hy|[Hy1 Hy2]].
    2:{ rewrite (axis_step_overflow _ _ _ Hy1 Hy2). simpl.
        split; [intros [= <-]; split; [done|by right; left]|by intros [-> _]]. }
    rewrite (axis_step_ok _ _ _ Hy). simpl.
    destruct (Hcases nx) as [Hx|[Hx1 Hx2]].
    2:{ rewrite (axis_step_overflow _ _ _ Hx1 Hx2). simpl.
        split; [intros [= <-]; split; [done|by right; right]|by intros [-> _]]. }
    rewrite (axis_step_ok _ _ _ Hx). simpl.
    split; [done|]. intros [_ [[Hn Ho]|[[Hn Ho]|[Hn Ho]]]].
    + destruct Hz as [|Hz]; congruence.
    + destruct Hy as [|Hy]; congruence.
    + destruct Hx as [|Hx]; congruence.
  - intros Hz Hy Hx. unfold _find_grid_params.
    rewrite (axis_step_ok _ _ _ Hz), (axis_step_ok _ _ _ Hy),
      (axis_step_ok _ _ _ Hx). simpl.
    eexists _, _, _. split; [reflexivity|].
    repeat split; intros Hn; by case_decide.
Qed.

(** ** [_detemine_cy_weighting_func] *)

(** X10: a tag returned by [_detemine_cy_weighting_func] is one of 0, 1,
    2, 3; a warning is added exactly with tag 0, and it is the Barnes
    deprecation; the upper-cased name resolves to the same tag. *)
Theorem detemine_tag_range (s : string) (w w' : list warning) (cy : Z) :
  _detemine_cy_weighting_func s w = (Ok cy, w') →
  0 ≤ cy ≤ 3
  ∧ (cy = 0 → w' = (w ++ [barnes_deprecation])%list)
  ∧ (cy ≠ 0 → w' = w)
  ∧ _detemine_cy_weighting_func (upper s) w = (Ok cy, w').
Proof.
  unfold _detemine_cy_weighting_func. rewrite upper_idem.
  destruct (String.eqb (upper s) "BARNES2"); [by intros [= <- <-]|].
  destruct (String.eqb (upper s) "NEAREST"); [by intros [= <- <-]|].
  destruct (String.eqb (upper s) "CRESSMAN"); [by intros [= <- <-]|].
  destruct (String.eqb (upper s) "BARNES"); [|done].
  by intros [= <- <-].
Qed.

(** ** Whole calls *)

(** X11: as the module is written, no call of [map_gates_to_grid]
    returns a grid dictionary: every call ends with an exception. *)
Theorem call_never_returns (a : call_args F) (w w' : list warning)
    (grids : gmap string (grid_value F)) :
  map_gates_to_grid a w ≠ (Ok grids, w').
Proof.
  destruct (map_gates_to_grid_raises a w) as (e & w'' & ->). discriminate.
Qed.

(** X12: an empty tuple of radars, with [grid_origin_alt] left at its
    default, is met by [IndexError] on line 112, before any warning is
    issued. *)
Theorem empty_radars_index_error (a : call_args F) (w : list warning) :
  radars_tuple (a_radars a) = [] → a_grid_origin_alt a = None →
  map_gates_to_grid a w = (Raise IndexError, w).
Proof.
  intros Hradars Halt. apply prelude_raise. unfold prelude.
  rewrite M_bind_lift. unfold find_grid_origin_alt.
  by rewrite Hradars, Halt.
Qed.

Lemma call_warnings_after_resolver (a : call_args F) (alt : F)
    (gfs : list gatefilter_item) (w : list warning) :
  find_grid_origin_alt (a_grid_origin_alt a) (radars_tuple (a_radars a)) = Ok alt →
  _parse_gatefilters (a_gatefilters a) (radars_tuple (a_radars a)) = Ok gfs →
  (map_gates_to_grid a w).2
  = (_detemine_cy_weighting_func (a_weighting_function a) w).2.
Proof.
  intros Halt Hgf. unfold map_gates_to_grid. rewrite M_bind_unfold.
  unfold prelude. rewrite M_bind_lift, Halt, M_bind_lift, Hgf, M_bind_unfold.
  destruct (_detemine_cy_weighting_func _ w) as [[cy|e] w1]; [|done].
  rewrite M_bind_lift. destruct (_find_projparams _ _ _) as [pp|e]; [|done].
  rewrite M_bind_lift. destruct (_determine_fields _ _) as [fs|e]; [|done].
  rewrite M_bind_lift.
  destruct (_find_grid_params _ _) as [[starts steps]|e]; [|done].
  rewrite M_bind_lift. by destruct (_find_offsets _ _ _) as [offs|e].
Qed.

(** X13: once the grid-origin altitude and the gate filters are found,
    the module calls [warnings.warn] in the course of a call if and only
    if the upper-cased weighting-function name is 'BARNES', and then once,
    for the Barnes deprecation; the warning is issued although the call
    then fails.  (Warnings that numpy reports on its own are not part of
    the record.) *)
Theorem deprecation_warning_iff (a : call_args F) (alt : F)
    (gfs : list gatefilter_item) (w : list warning) :
  find_grid_origin_alt (a_grid_origin_alt a) (radars_tuple (a_radars a)) = Ok alt →
  _parse_gatefilters (a_gatefilters a) (radars_tuple (a_radars a)) = Ok gfs →
  ((map_gates_to_grid a w).2 = (w ++ [barnes_deprecation])%list
   ↔ upper (a_weighting_function a) = "BARNES")
  ∧ (upper (a_weighting_function a) ≠ "BARNES" → (map_gates_to_grid a w).2 = w).
Proof.
  intros Halt Hgf. rewrite (call_warnings_after_resolver a alt gfs w Halt Hgf).
  assert (Hne : (w ++ [barnes_deprecation])%list ≠ w).
  { intros Heq. apply (f_equal length) in Heq.
    rewrite length_app in Heq. simpl in Heq. lia. }
  unfold _detemine_cy_weighting_func.
  destruct (String.eqb_spec (upper (a_weighting_function a)) "BARNES2") as [H3|H3].
  { simpl. rewrite H3. split; [split; [by intros ?%symmetry|done]|done]. }
  destruct (String.eqb_spec (upper (a_weighting_function a)) "NEAREST") as [H2|H2].
  { simpl. rewrite H2. split; [split; [by intros ?%symmetry|done]|done]. }
  destruct (String.eqb_spec (upper (a_weighting_function a)) "CRESSMAN") as [H1|H1].
  { simpl. rewrite H1. split; [split; [by intros ?%symmetry|done]|done]. }
  destruct (String.eqb_spec (upper (a_weighting_function a)) "BARNES") as [H0|H0].
  { simpl. split; [done|]. by intros []. }
  simpl. split; [split; [by intros ?%symmetry|done]|done].
Qed.

(** X14: whenever [roi_func] is anything but the string 'max_space' (a
    RoIFunction object of the caller and an unknown name included) a call
    whose prelude completes ends on line 134 with [UnboundLocalError]:
    [_parse_roi_func] is not entered. *)
Theorem roi_object_unbound_local (a : call_args F) (L : prelude_locals F)
    (w w' : list warning) :
  roi_is (a_roi_func a) "max_space" = false →
  prelude a w = (Ok L, w') →
  map_gates_to_grid a w = (Raise (UnboundLocalError "max_az_spacing"), w').
Proof.
  intros Hroi Hp. rewrite (prelude_ok _ _ _ _ Hp).
  unfold map_from_prelude, max_az_spacing_local. by rewrite Hroi.
Qed.

(** X15: with [roi_func='max_space'] and an empty tuple of radars, a
    call whose prelude completes ends with the [ValueError] of [np.max] on
    the empty buffer. *)
Theorem max_space_without_radars (a : call_args F) (L : prelude_locals F)
    (w w' : list warning) :
  a_roi_func a = RoiName "max_space" →
  radars_tuple (a_radars a) = [] →
  prelude a w = (Ok L, w') →
  map_gates_to_grid a w
  = (Raise (ValueError
       "zero-size array to reduction operation maximum which has no identity"),
     w').
Proof.
  intros Hroi Hradars Hp. rewrite (prelude_ok _ _ _ _ Hp).
  unfold map_from_prelude.
  by rewrite (prelude_radars _ _ _ _ Hp), Hroi, Hradars.
Qed.

(** ** Gathering the field data of one radar (lines 148-154) *)

Lemma field_array_ok (radar : Radar F) (f : string) (plane : list (list (mcell F))) :
  field_array radar f = Ok plane ↔ fields radar !! f = Some plane.
Proof.
  unfold field_array. destruct (fields radar !! f); split; congruence.
Qed.

(** X16: the field data of a radar are gathered without an exception
    exactly when the radar carries every requested field; the buffers then
    hold one plane per requested field, plane [i] being the values (as
    float32) and the mask of field [i] of the list. *)
Theorem copy_field_data_ok_iff (radar : Radar F) (fields_ : list string) :
  ((∃ data mask, copy_field_data radar fields_ = Ok (data, mask))
   ↔ ∀ f, f ∈ fields_ → is_Some (fields radar !! f))
  ∧ ∀ data mask,
      copy_field_data radar fields_ = Ok (data, mask) →
      length data = length fields_ ∧ length mask = length fields_
      ∧ ∀ (i : nat) (f : string) (plane : list (list (mcell F))),
          fields_ !! i = Some f → fields radar !! f = Some plane →
          data !! i = Some (map2d (λ c, to_float32 (m_data c)) plane)
          ∧ mask !! i = Some (map2d m_mask plane).
Proof.
  unfold copy_field_data. split; [split|].
  - intros (data & mask & Hcopy) f Hf.
    destruct (mapR (field_array radar) fields_) as [planes|e] eqn:Hplanes;
      [|done].
    apply list_elem_of_lookup in Hf as [i Hi].
    destruct (mapR_lookup _ _ _ _ _ Hplanes Hi) as (plane & Hplane & _).
    apply field_array_ok in Hplane. by eexists.
  - intros Hall.
    destruct (mapR_ok_exists (field_array radar) fields_) as [planes ->].
    { intros f Hf. destruct (Hall f Hf) as [plane Hplane].
      exists plane. by apply field_array_ok. }
    simpl. by eexists _, _.
  - intros data mask Hcopy.
    destruct (mapR (field_array radar) fields_) as [planes|e] eqn:Hplanes;
      [|done].
    simpl in Hcopy. injection Hcopy as <- <-.
    pose proof (mapR_length _ _ _ Hplanes) as Hlen.
    rewrite !length_fmap. split; [done|]. split; [done|].
    intros i f plane Hi Hplane.
    destruct (mapR_lookup _ _ _ _ _ Hplanes Hi) as (plane' & Hplane' & Hpi).
    apply field_array_ok in Hplane'. rewrite Hplane in Hplane'.
    injection Hplane' as <-.
    by rewrite !list_lookup_fmap, Hpi.
Qed.

(** ** The keys of the dictionary returned by the finalizer *)

Lemma field_grids_names (fields_ : list string)
    (grid_sum grid_wsum : list (list F))
    (pairs : list (string * list (mcell F))) :
  field_grids fields_ grid_sum grid_wsum = Ok pairs → pairs.*1 = fields_.
Proof.
  intros Hpairs. apply list_eq. intros j.
  rewrite list_lookup_fmap.
  destruct (pairs !! j) as [[f g]|] eqn:Hj; simpl.
  - symmetry. by apply (field_grids_keys _ _ _ _ _ _ _ Hpairs Hj).
  - symmetry. apply lookup_ge_None. apply lookup_ge_None in Hj.
    unfold field_grids in Hpairs. apply mapR_length in Hpairs.
    rewrite length_imap in Hpairs. lia.
Qed.

Lemma dom_dict_of_pairs (pairs : list (string * list (mcell F))) :
  (dom (dict_of_pairs pairs) : gset string) = list_to_set pairs.*1.
Proof.
  induction pairs as [|[f g] pairs IH] using rev_ind.
  { unfold dict_of_pairs. simpl. by rewrite dom_empty_L. }
  rewrite dict_of_pairs_snoc, dom_insert_L, IH, fmap_app, list_to_set_app_L.
  simpl. rewrite union_empty_r_L. apply (comm_L (∪)).
Qed.

(** X17: when the finalizer returns, the keys of its dictionary are the
    requested field names, together with 'ROI' when [map_roi] is set; and
    with [map_roi] set the entry 'ROI' is the radius-of-influence grid,
    also when a requested field is itself named 'ROI'. *)
Theorem finalize_keys (gatemapper : GateToGridMapper F) (fields_ : list string)
    (grid_sum grid_wsum : list (list F)) (map_roi : bool)
    (roi_func : RoIFunction F) (grids : gmap string (grid_value F)) :
  finalize gatemapper fields_ grid_sum grid_wsum map_roi roi_func = Ok grids →
  (dom grids : gset string)
  = list_to_set fields_ ∪ (if map_roi then {["ROI"]} else ∅)
  ∧ (map_roi = true →
       grids !! "ROI"
       = Some (RoiGrid (gatemapper_find_roi_for_grid gatemapper roi_func))).
Proof.
  unfold finalize.
  destruct (field_grids fields_ grid_sum grid_wsum) as [pairs|e] eqn:Hpairs;
    [|done].
  simpl. pose proof (field_grids_names _ _ _ _ Hpairs) as Hnames.
  destruct map_roi; intros [= <-].
  - split; [|intros _; apply lookup_insert_eq].
    rewrite dom_insert_L, dom_dict_of_pairs, Hnames. apply (comm_L (∪)).
  - split; [|done].
    by rewrite dom_dict_of_pairs, Hnames, union_empty_r_L.
Qed.

(** ** Gate positions of a single radar *)



(** ** The first steps of a call on their own *)

(** X19: finding the altitude of the grid origin (lines 110-114) raises
    in one situation only, an empty tuple of radars with no
    [grid_origin_alt] given, and then raises [IndexError]; an altitude
    given by the caller is used as it is, and an altitude array of the
    first radar that is not a single value is replaced by its mean. *)
Theorem find_grid_origin_alt_raises_iff (grid_origin_alt : option F)
    (radars : list (Radar F)) (e : exn) :
  (find_grid_origin_alt grid_origin_alt radars = Raise e
   ↔ grid_origin_alt = None ∧ radars = [] ∧ e = IndexError)
  ∧ (∀ alt, find_grid_origin_alt (Some alt) radars = Ok alt)
  ∧ (∀ radar0 rest z,
       radars = radar0 :: rest → altitude radar0 = [z] →
       find_grid_origin_alt None radars = Ok z)
  ∧ (∀ radar0 rest,
       radars = radar0 :: rest → length (altitude radar0) ≠ 1%nat →
       find_grid_origin_alt None radars = Ok (np_mean (altitude radar0))).
Proof.
  split; [|split; [done|split]].
  - unfold find_grid_origin_alt. destruct grid_origin_alt as [alt|].
    + split; [done|by intros [? _]].
    + destruct radars as [|radar0 rest]; simpl.
      * split; [by intros [= <-]|by intros (_ & _ & ->)].
      * destruct (py_float_cases (altitude radar0)) as [[x ->]| ->]; simpl;
          (split; [done|by intros (_ & ? & _)]).
  - intros radar0 rest z -> Hz. unfold find_grid_origin_alt. simpl.
    by rewrite Hz.
  - intros radar0 rest -> Hlen. unfold find_grid_origin_alt. simpl.
    by destruct (altitude radar0) as [|x [|y l]].
Qed.

(** X20: with [roi_func='max_space'], a first radar without any gate
    ([ngates = 0]) is met by [IndexError] when line 126 takes the last
    gate of each ray, before the buffer is touched. *)
Theorem max_space_without_gates (radar0 : Radar F) (rest : list (Radar F)) :
  ngates radar0 = 0%nat →
  max_az_spacing_local (RoiName "max_space") (radar0 :: rest) = Raise IndexError.
Proof.
  intros Hgates. unfold max_az_spacing_local. simpl.
  unfold max_space_step, last_column. by rewrite Hgates.
Qed.

End Further.

(** * Closed instances of the further properties *)

Section FurtherInstances.
#[local] Existing Instance sample_collaborators.
#[local] Existing Instance ascii_PyStr.

Lemma parse_gatefilters_one_per_radar_witness :
  _parse_gatefilters GatefiltersFalse [radar_a; radar_b]
  = Ok [ItemFalse; ItemFalse]
  ∧ length [ItemFalse; ItemNone] = length [radar_a; radar_b]
  ∧ (zip [radar_a; radar_b] [ItemFalse; ItemNone]).*1 = [radar_a; radar_b].
Proof.
  destruct (parse_gatefilters_one_per_radar (F:=Q) [radar_a; radar_b])
    as (Hfalse & _ & Hany).
  split; [exact Hfalse|].
  apply (Hany (GateFilterSeq [ItemFalse; ItemNone])). reflexivity.
Defined.

Lemma prelude_pairs_every_radar_witness :
  ∃ L : prelude_locals Q,
    prelude sample_call [] = (Ok L, [barnes_deprecation])
    ∧ l_radars L = [radar_a]
    ∧ length (l_gatefilters L) = length (l_radars L).
Proof.
  destruct (prelude sample_call []) as [[L|e] w'] eqn:Hp;
    [|vm_compute in Hp; discriminate Hp].
  assert (Hw : w' = [barnes_deprecation]).
  { vm_compute in Hp. by injection Hp as _ <-. }
  subst w'. exists L. split; [reflexivity|].
  destruct (prelude_pairs_every_radar (F:=Q) sample_call L []
              [barnes_deprecation] Hp) as (Hradars & Hlen & _).
  split; [exact Hradars|exact Hlen].
Defined.

Lemma find_offsets_one_per_radar_witness :
  ∃ offsets : list (Q * Q * Q),
    _find_offsets [radar_a; radar_moving] ∅ (inject_Z 100) = Ok offsets
    ∧ length offsets = 2%nat
    ∧ offsets !! 0%nat
      = Some (fsub (inject_Z 100) (inject_Z 100), inject_Z 36, inject_Z (-97)).
Proof.
  destruct (find_offsets_one_per_radar (F:=Q) [radar_a; radar_moving] ∅
              (inject_Z 100)) as [_ Hprojected].
  destruct Hprojected as (offsets & Hok & Hlen & Hscalar).
  { intros radar _. by eexists. }
  exists offsets. split; [exact Hok|]. split; [exact Hlen|].
  apply (Hscalar 0%nat radar_a); reflexivity.
Defined.

Lemma determine_fields_order_independent_witness :
  ∃ l' : list string,
    _determine_fields None [radar_b; radar_a] = Ok l'
    ∧ ["reflectivity"] ≡ₚ l'.
Proof.
  apply (determine_fields_order_independent (F:=Q) [radar_a; radar_b]).
  - apply perm_swap.
  - vm_compute. reflexivity.
Defined.

Lemma find_grid_params_raises_iff_witness :
  (∃ z_step y_step x_step : Q,
     _find_grid_params (0, 1, -2)
       ((inject_Z 0, inject_Z 10), (inject_Z 0, inject_Z 10),
        (inject_Z 0, inject_Z 10))
     = Ok ((inject_Z 0, inject_Z 0, inject_Z 0), (z_step, y_step, x_step))
     ∧ z_step = fdiv (fsub (inject_Z 10) (inject_Z 0)) (fsub (of_int 0) fone))
  ∧ _find_grid_params (F:=option Q) (2, 1, 2 ^ 1024)
      ((Some (inject_Z 0), Some (inject_Z 10)),
       (Some (inject_Z 0), Some (inject_Z 10)),
       (Some (inject_Z 0), Some (inject_Z 10)))
    = Raise OverflowError.
Proof.
  split.
  - destruct (find_grid_params_raises_iff (F:=Q) 0 1 (-2)
                (inject_Z 0) (inject_Z 10) (inject_Z 0) (inject_Z 10)
                (inject_Z 0) (inject_Z 10)) as [_ Hreturns].
    destruct Hreturns as (z & y & x & Hok & Hz & _);
      [by right|by left|by right|].
    exists z, y, x. split; [exact Hok|]. apply Hz. lia.
  - apply (find_grid_params_raises_iff (F:=option Q) 2 1 (2 ^ 1024)).
    split; [reflexivity|]. right; right. split; [done|].
    vm_compute. reflexivity.
Defined.

Lemma detemine_tag_range_witness :
  0 ≤ 0 ≤ 3
  ∧ _detemine_cy_weighting_func (upper "Barnes") []
    = (Ok 0, [barnes_deprecation]).
Proof.
  destruct (detemine_tag_range "Barnes" [] [barnes_deprecation] 0)
    as (Hrange & _ & _ & Hupper); [reflexivity|].
  split; [exact Hrange|exact Hupper].
Defined.

Lemma empty_radars_index_error_witness :
  map_gates_to_grid (with_radars sample_call (RadarSeq [])) []
  = (Raise IndexError, []).
Proof.
  apply (empty_radars_index_error (F:=Q)); reflexivity.
Defined.

Lemma deprecation_warning_iff_witness :
  (map_gates_to_grid sample_call []).2 = [barnes_deprecation].
Proof.
  apply (deprecation_warning_iff (F:=Q) sample_call (inject_Z 100) [ItemFalse] []);
    reflexivity.
Defined.

Lemma roi_object_unbound_local_witness :
  map_gates_to_grid
    (with_roi_func sample_call (RoiObject (ConstantRoI (inject_Z 500)))) []
  = (Raise (UnboundLocalError "max_az_spacing"), [barnes_deprecation]).
Proof.
  destruct (prelude (with_roi_func sample_call
                       (RoiObject (ConstantRoI (inject_Z 500)))) [])
    as [[L|e] w'] eqn:Hp; [|vm_compute in Hp; discriminate Hp].
  assert (Hw : w' = [barnes_deprecation]).
  { vm_compute in Hp. by injection Hp as _ <-. }
  subst w'.
  apply (roi_object_unbound_local (F:=Q) _ L [] [barnes_deprecation]);
    [reflexivity|exact Hp].
Defined.

Lemma max_space_without_radars_witness :
  map_gates_to_grid sample_empty_call []
  = (Raise (ValueError
       "zero-size array to reduction operation maximum which has no identity"),
     []).
Proof.
  destruct (prelude sample_empty_call []) as [[L|e] w'] eqn:Hp;
    [|vm_compute in Hp; discriminate Hp].
  assert (Hw : w' = []).
  { vm_compute in Hp. by injection Hp as _ <-. }
  subst w'.
  apply (max_space_without_radars (F:=Q) sample_empty_call L [] []);
    [reflexivity|reflexivity|exact Hp].
Defined.

Lemma copy_field_data_ok_iff_witness :
  (∃ data mask, copy_field_data radar_a ["velocity"; "reflectivity"]
                = Ok (data, mask))
  ∧ ¬ (∃ data mask, copy_field_data radar_b ["velocity"; "reflectivity"]
                    = Ok (data, mask)).
Proof.
  split.
  - apply (copy_field_data_ok_iff (F:=Q) radar_a ["velocity"; "reflectivity"]).
    intros f Hf. apply elem_of_cons in Hf as [->|Hf]; [by eexists|].
    apply list_elem_of_singleton in Hf as ->. by eexists.
  - intros Hok.
    destruct (copy_field_data_ok_iff (F:=Q) radar_b ["velocity"; "reflectivity"])
      as [[Hall _] _].
    destruct (Hall Hok "velocity") as [plane Hplane]; [by left|].
    vm_compute in Hplane. discriminate Hplane.
Defined.

Lemma finalize_keys_witness :
  ∃ grids : gmap string (grid_value Q),
    finalize
      {| gm_grid_shape := (1, 1, 2);
         gm_grid_starts := (inject_Z 0, inject_Z 0, inject_Z 0);
         gm_grid_steps := (inject_Z 0, inject_Z 0, inject_Z 1) |}
      ["reflectivity"; "ROI"]
      [[inject_Z 6; inject_Z 2]; [inject_Z 3; inject_Z 4]]
      [[inject_Z 2; inject_Z 0]; [inject_Z 3; inject_Z 1]]
      true (ConstantRoI (inject_Z 500)) = Ok grids
    ∧ (dom grids : gset string)
      = list_to_set ["reflectivity"; "ROI"] ∪ {["ROI"]}
    ∧ grids !! "ROI" = Some (RoiGrid [inject_Z 1; inject_Z 1]).
Proof.
  destruct (finalize
      {| gm_grid_shape := (1, 1, 2);
         gm_grid_starts := (inject_Z 0, inject_Z 0, inject_Z 0);
         gm_grid_steps := (inject_Z 0, inject_Z 0, inject_Z 1) |}
      ["reflectivity"; "ROI"]
      [[inject_Z 6; inject_Z 2]; [inject_Z 3; inject_Z 4]]
      [[inject_Z 2; inject_Z 0]; [inject_Z 3; inject_Z 1]]
      true (ConstantRoI (inject_Z 500))) as [grids|e] eqn:Hf;
    [|vm_compute in Hf; discriminate Hf].
  exists grids. split; [reflexivity|].
  destruct (finalize_keys (F:=Q) _ _ _ _ _ _ grids Hf) as [Hdom Hroi].
  split; [exact Hdom|]. by apply Hroi.
Defined.


Lemma max_space_without_gates_witness :
  max_az_spacing_local (RoiName "max_space") [radar_no_gates; radar_a]
  = Raise IndexError.
Proof.
  apply (max_space_without_gates (F:=Q) radar_no_gates [radar_a]). reflexivity.
Defined.

End FurtherInstances.
